(** * OpenRouter pipe for Open WebUI: a shallow embedding of
    [open_router_function.py] and the properties of its request
    normaliser, its non-streaming reshape, its streaming state machine and
    its model listing.

    Python values are modelled by the inductive [pyval]; dictionaries are
    association lists kept in insertion order (the order matters to
    [json.dumps]); the objects the caller shares with [Pipe.pipe] live in
    a store indexed by locations; exceptions are values of [exn] carried
    by a small error monad.  The libraries the module calls ([json],
    [time], [httpx], [requests]) are section variables. *)

From Stdlib Require Import ZArith String Ascii List Bool Lia.
From Stdlib Require Import Floats.SpecFloat Numbers.DecimalString.
From stdpp Require Import base option gmap.
Import ListNotations.

Local Set Warnings "-register-all".
Local Open Scope string_scope.
Local Open Scope Z_scope.

(** ** Python values *)

Module Py.

(** The values that [json.loads] produces and [json.dumps] consumes, which
    are also the values a request body holds. *)
Inductive pyval : Type :=
| PNone
| PBool (b : bool)
| PInt (z : Z)
| PFloat (f : spec_float)
| PStr (s : string)
| PList (l : list pyval)
| PDict (d : list (string * pyval)).

(** A [dict] with [str] keys, in insertion order. *)
Definition pydict : Type := list (string * pyval).

(** Exceptions.  [str(exc)] is the section variable [str_exc] below. *)
Inductive exn : Type :=
| AttributeError (obj : pyval) (attr : string)
| TypeError (op : string) (obj : pyval)
| KeyError (key : pyval)
| IndexError
| JSONDecodeError (doc : string)
| HTTPError (detail : string)
| TransportError (detail : string).

(** Either a value or a raised exception. *)
Inductive result (A : Type) : Type :=
| Ok (a : A)
| Raise (e : exn).
Arguments Ok {A} a.
Arguments Raise {A} e.

Definition bind {A B} (m : result A) (k : A -> result B) : result B :=
  match m with
  | Ok a => k a
  | Raise e => Raise e
  end.

(** [try: m except Exception as exc: h exc] *)
Definition try_except {A} (m : result A) (h : exn -> result A) : result A :=
  match m with
  | Ok a => Ok a
  | Raise e => h e
  end.

Declare Scope py_scope.
Delimit Scope py_scope with py.
Notation "x <- m ;; k" := (bind m (fun x => k))
  (at level 20, m at level 99, k at level 200, only parsing) : py_scope.
Local Open Scope py_scope.

(** *** Strings

    A Python [str] is modelled by a [string]; every pattern the module
    searches for is ASCII. *)

(** [s.startswith(p)] *)
Fixpoint startswith (p s : string) : bool :=
  match p, s with
  | EmptyString, _ => true
  | String a p', String b s' => if Ascii.eqb a b then startswith p' s' else false
  | String _ _, EmptyString => false
  end.

(** [s[n:]] for [n >= 0] *)
Fixpoint slice_from (n : nat) (s : string) : string :=
  match n, s with
  | O, _ => s
  | S n', String _ s' => slice_from n' s'
  | S _, EmptyString => EmptyString
  end.

(** [s[:n]] for [n >= 0] *)
Fixpoint slice_to (n : nat) (s : string) : string :=
  match n, s with
  | O, _ => EmptyString
  | S n', String a s' => String a (slice_to n' s')
  | S _, EmptyString => EmptyString
  end.

(** [s.find(sub)], with [None] for Python's [-1] *)
Fixpoint find (sub s : string) : option nat :=
  if startswith sub s then Some O
  else match s with
       | EmptyString => None
       | String _ s' => option_map S (find sub s')
       end.

(** [sub in s] *)
Definition str_contains (sub s : string) : bool :=
  match find sub s with Some _ => true | None => false end.

(** [s.split(sep, 1)[-1]] for a non-empty [sep]: what follows the first
    occurrence of [sep], or all of [s] when there is none. *)
Definition split1_last (sep s : string) : string :=
  match find sep s with
  | Some i => slice_from (i + String.length sep) s
  | None => s
  end.

(** [s.replace(old, new, 1)] for a non-empty [old] *)
Definition replace1 (old new s : string) : string :=
  match find old s with
  | Some i => slice_to i s ++ new ++ slice_from (i + String.length old) s
  | None => s
  end.

Definition lower_ascii (a : ascii) : ascii :=
  let n := nat_of_ascii a in
  if (andb (Nat.leb 65 n) (Nat.leb n 90)) then ascii_of_nat (n + 32) else a.

(** [s.lower()], on the ASCII letters *)
Fixpoint lower (s : string) : string :=
  match s with
  | EmptyString => EmptyString
  | String a s' => String (lower_ascii a) (lower s')
  end.

(** *** Truth value, [or], [str()] *)

(** [bool(v)] *)
Definition truthy (v : pyval) : bool :=
  match v with
  | PNone => false
  | PBool b => b
  | PInt z => negb (z =? 0)
  | PFloat f => match f with S754_zero _ => false | _ => true end
  | PStr s => match s with EmptyString => false | _ => true end
  | PList l => match l with [] => false | _ => true end
  | PDict d => match d with [] => false | _ => true end
  end.

(** *** Dictionaries *)

Fixpoint dict_lookup (k : string) (d : pydict) : option pyval :=
  match d with
  | [] => None
  | (k', v) :: d' => if String.eqb k k' then Some v else dict_lookup k d'
  end.

(** [k in d] *)
Definition dict_has (k : string) (d : pydict) : bool :=
  match dict_lookup k d with Some _ => true | None => false end.

(** [d.get(k, default)] *)
Definition dict_get (k : string) (d : pydict) (default : pyval) : pyval :=
  match dict_lookup k d with Some v => v | None => default end.

(** [d[k] = v]: an existing key keeps its position, a new key goes last. *)
Fixpoint dict_set (k : string) (v : pyval) (d : pydict) : pydict :=
  match d with
  | [] => [(k, v)]
  | (k', v') :: d' =>
      if String.eqb k k' then (k', v) :: d' else (k', v') :: dict_set k v d'
  end.

(** *** Operations on arbitrary values, which raise on the wrong type *)

(** [v.get(k, default)] *)
Definition py_get (v : pyval) (k : string) (default : pyval) : result pyval :=
  match v with
  | PDict d => Ok (dict_get k d default)
  | _ => Raise (AttributeError v "get")
  end.

(** [v[0]] *)
Definition py_first (v : pyval) : result pyval :=
  match v with
  | PList (x :: _) => Ok x
  | PList [] => Raise IndexError
  | PStr (String a _) => Ok (PStr (String a EmptyString))
  | PStr EmptyString => Raise IndexError
  | PDict _ => Raise (KeyError (PInt 0))
  | _ => Raise (TypeError "subscript" v)
  end.

(** [v[k]] for a string [k] *)
Definition py_getitem (v : pyval) (k : string) : result pyval :=
  match v with
  | PDict d =>
      match dict_lookup k d with
      | Some x => Ok x
      | None => Raise (KeyError (PStr k))
      end
  | _ => Raise (TypeError "subscript" v)
  end.

Definition is_str (k : string) (v : pyval) : bool :=
  match v with PStr s => String.eqb k s | _ => false end.

(** [k in v] for a string [k] *)
Definition py_contains (k : string) (v : pyval) : result bool :=
  match v with
  | PDict d => Ok (dict_has k d)
  | PList l => Ok (existsb (is_str k) l)
  | PStr s => Ok (str_contains k s)
  | _ => Raise (TypeError "in" v)
  end.

Fixpoint chars (s : string) : list pyval :=
  match s with
  | EmptyString => []
  | String a s' => PStr (String a EmptyString) :: chars s'
  end.

(** The items [for x in v] goes through. *)
Definition py_iter (v : pyval) : result (list pyval) :=
  match v with
  | PList l => Ok l
  | PDict d => Ok (map (fun kv => PStr (fst kv)) d)
  | PStr s => Ok (chars s)
  | _ => Raise (TypeError "iter" v)
  end.

(** [len(v)] *)
Definition py_len (v : pyval) : result Z :=
  match v with
  | PList l => Ok (Z.of_nat (List.length l))
  | PDict d => Ok (Z.of_nat (List.length d))
  | PStr s => Ok (Z.of_nat (String.length s))
  | _ => Raise (TypeError "len" v)
  end.

(** [v.lower()] *)
Definition py_lower (v : pyval) : result string :=
  match v with
  | PStr s => Ok (lower s)
  | _ => Raise (AttributeError v "lower")
  end.

(** [v[k] = x] for a string [k], as the value [v] holds afterwards *)
Definition py_setitem (v : pyval) (k : string) (x : pyval) : result pyval :=
  match v with
  | PDict d => Ok (PDict (dict_set k x d))
  | _ => Raise (TypeError "setitem" v)
  end.

(** [v.split(sep, 1)[-1]] *)
Definition py_split1_last (v : pyval) (sep : string) : result string :=
  match v with
  | PStr s => Ok (split1_last sep s)
  | _ => Raise (AttributeError v "split")
  end.

(** [[x for x in l if keep x]], stopping at the first exception. *)
Fixpoint for_filter {A} (keep : A -> result bool) (l : list A) : result (list A) :=
  match l with
  | [] => Ok []
  | x :: l' =>
      b <- keep x ;; xs <- for_filter keep l' ;; Ok (if b : bool then x :: xs else xs)
  end.

(** [for x in l: body x], stopping at the first exception. *)
Fixpoint for_each {A B} (body : A -> result B) (l : list A) : result (list B) :=
  match l with
  | [] => Ok []
  | x :: l' => y <- body x ;; ys <- for_each body l' ;; Ok (y :: ys)
  end.

End Py.

Import Py.
Local Open Scope py_scope.

(** ** The streaming reshape: [Pipe._handle_streaming_request] *)

Module Stream.

(** The line feed character, as a string. *)
Definition nl : string := String (ascii_of_nat 10) EmptyString.

(** What the generator has done when it stops. *)
Inductive ending : Type :=
| Exhausted            (* [aiter_lines] ran out and the [async for] ended *)
| Returned             (* the [return] after [data: [DONE]] *)
| Raised (e : exn).    (* an exception left the generator *)

(** The variables of the generator that change while it runs:
    [thinking_state] (-1: not started, 0: thinking, 1: answered) and the
    number of times [time.time()] has been read. *)
Record gstate : Type := GState { thinking_state : Z; clock_reads : nat }.

(** A piece of the generator's body: from a state, the strings it yields,
    the state it leaves and its value or the exception it raises.  What was
    yielded before an exception stays yielded. *)
Definition gen (A : Type) : Type := gstate -> list string * gstate * result A.

Definition gret {A} (a : A) : gen A := fun st => ([], st, Ok a).

Definition gbind {A B} (m : gen A) (k : A -> gen B) : gen B :=
  fun st =>
    match m st with
    | (out, st1, Ok a) =>
        match k a st1 with
        | (out', st2, r) => ((out ++ out')%list, st2, r)
        end
    | (out, st1, Raise e) => (out, st1, Raise e)
    end.

(** [yield s] *)
Definition yield (s : string) : gen unit := fun st => ([s], st, Ok tt).

(** An expression that may raise. *)
Definition eval {A} (r : result A) : gen A := fun st => ([], st, r).

Definition get_thinking_state : gen Z := fun st => ([], st, Ok (thinking_state st)).

Definition set_thinking_state (z : Z) : gen unit :=
  fun st => ([], GState z (clock_reads st), Ok tt).

Declare Scope gen_scope.
Delimit Scope gen_scope with gen.
Notation "x <- m ;; k" := (gbind m (fun x => k))
  (at level 20, m at level 99, k at level 200, only parsing) : gen_scope.
Notation "m ;; k" := (gbind m (fun _ => k))
  (at level 100, k at level 200, only parsing, right associativity) : gen_scope.

Section WithLibraries.

(** [json.loads], [None] when it raises [JSONDecodeError]. *)
Variable json_loads : string -> option pyval.
(** [json.dumps] *)
Variable json_dumps : pyval -> string.
(** [int(time.time())] at the n-th reading of the clock. *)
Variable time_time : nat -> Z.

Definition loads (doc : string) : result pyval :=
  match json_loads doc with
  | Some v => Ok v
  | None => Raise (JSONDecodeError doc)
  end.

(** [int(time.time())] *)
Definition now : gen Z :=
  fun st => ([], GState (thinking_state st) (S (clock_reads st)),
             Ok (time_time (clock_reads st))).

(** The dictionary [chunk_data] of [construct_chunk]. *)
Definition chunk_data (id : pyval) (created : Z) (model content : pyval) : pyval :=
  PDict [ ("id", id);
          ("object", PStr "chat.completion.chunk");
          ("created", PInt created);
          ("model", model);
          ("choices",
            PList [ PDict [ ("index", PInt 0);
                            ("delta", PDict [ ("content", content);
                                              ("role", PStr "assistant") ]);
                            ("finish_reason", PNone) ] ]) ].

(** The wire framing of one chunk. *)
Definition frame (chunk : pyval) : string :=
  "data: " ++ json_dumps chunk ++ nl ++ nl.

(** [construct_chunk(content)]; [body] and [data] are the variables the
    closure captures. *)
Definition construct_chunk (body : pydict) (data : pyval) (content : pyval)
  : gen string :=
  (id <- eval (py_get data "id" (PStr EmptyString)) ;;
   created <- now ;;
   gret (frame (chunk_data id created
                  (dict_get "model" body (PStr "unknown")) content)))%gen.

(** The literal termination line. *)
Definition done_line : string := "data: [DONE]" ++ nl ++ nl.

(** [# State transitions]: the [if]/[elif] of the loop body. *)
Definition state_transitions (body : pydict) (data delta : pyval) : gen unit :=
  (ts <- get_thinking_state ;;
   reasoning <- (if ts =? -1 then eval (py_get delta "reasoning" PNone)
                 else gret PNone) ;;
   if (ts =? -1) && truthy reasoning then
     set_thinking_state 0 ;;
     chunk <- construct_chunk body data (PStr "<think>") ;;
     yield chunk
   else
     if ts =? 0 then
       reasoning <- eval (py_get delta "reasoning" PNone) ;;
       if negb (truthy reasoning) then
         content <- eval (py_get delta "content" PNone) ;;
         if truthy content then
           set_thinking_state 1 ;;
           chunk <- construct_chunk body data (PStr ("</think>" ++ nl ++ nl)) ;;
           yield chunk
         else gret tt
       else gret tt
     else gret tt)%gen.

(** [# Handle content output] *)
Definition content_output (body : pydict) (data delta : pyval) : gen unit :=
  (reasoning <- eval (py_get delta "reasoning" PNone) ;;
   content <- (if truthy reasoning then gret reasoning
               else eval (py_get delta "content" (PStr EmptyString))) ;;
   if truthy content then
     chunk <- construct_chunk body data content ;;
     yield chunk
   else gret tt)%gen.

(** [data.get("choices", [{}])[0]] *)
Definition first_choice (data : pyval) : result pyval :=
  (choices <- py_get data "choices" (PList [PDict []]) ;;
   py_first choices)%py.

(** One turn of the [async for]: [true] when the [return] is taken. *)
Definition process_line (body : pydict) (line : string) : gen bool :=
  (if negb (startswith "data: " line) then gret false
   else
     data <- eval (loads (slice_from 6 line)) ;;
     choice <- eval (first_choice data) ;;
     delta <- eval (py_get choice "delta" (PDict [])) ;;
     state_transitions body data delta ;;
     content_output body data delta ;;
     finish_reason <- eval (py_get choice "finish_reason" PNone) ;;
     if truthy finish_reason then
       yield done_line ;;
       gret true
     else gret false)%gen.

(** One turn of the loop on the line of an event whose [data], [choice]
    and [delta] are the mappings [d], [c] and [delta]: the three blocks
    in sequence, none of which raises on mappings. *)
Definition turn (body d c delta : pydict) (st : gstate)
  : list string * gstate * result bool :=
  let '(o1, st1, _) := state_transitions body (PDict d) (PDict delta) st in
  let '(o2, st2, _) := content_output body (PDict d) (PDict delta) st1 in
  if truthy (dict_get "finish_reason" c PNone)
  then ((o1 ++ o2 ++ [done_line])%list, st2, Ok true)
  else ((o1 ++ o2)%list, st2, Ok false).

(** A line on which a turn gets as far as its last test and takes the
    [return], told by what the statements of [process_line] compute on
    it. *)
Definition reaches_return (line : string) : Prop :=
  startswith "data: " line = true /\
  exists data choice delta,
    json_loads (slice_from 6 line) = Some (PDict data) /\
    first_choice (PDict data) = Ok (PDict choice) /\
    dict_get "delta" choice (PDict []) = PDict delta /\
    truthy (dict_get "finish_reason" choice PNone) = true.

(** The [async for] over the lines; its value tells whether the [return]
    was taken and which lines were never read. *)
Fixpoint loop (body : pydict) (lines : list string) : gen (bool * list string) :=
  match lines with
  | [] => gret (false, [])
  | line :: rest =>
      (stop <- process_line body line ;;
       if stop : bool then gret (true, rest) else loop body rest)%gen
  end.

(** What a consumer that drains the generator sees. *)
Record run : Type := Run {
  emitted : list string;
  finish : ending;
  phase : Z;
  unread : list string
}.

Definition initial : gstate := GState (-1) 0.

(** The state after one more reading of the clock. *)
Definition tick (st : gstate) : gstate :=
  GState (thinking_state st) (S (clock_reads st)).

Definition run_from (st : gstate) (body : pydict) (lines : list string) : run :=
  match loop body lines st with
  | (out, st', Ok (true, rest)) => Run out Returned (thinking_state st') rest
  | (out, st', Ok (false, rest)) => Run out Exhausted (thinking_state st') rest
  | (out, st', Raise e) => Run out (Raised e) (thinking_state st') []
  end.

(** The body of the generator once the response is open and its status
    checked: [thinking_state = -1], then the loop. *)
Definition reshape_lines (body : pydict) (lines : list string) : run :=
  run_from initial body lines.

End WithLibraries.

End Stream.

(** ** A reference [json] for the examples

    A reader and a writer for the fragment of JSON without fractional
    numbers and without [\u] escapes.  The theorems below hold for any
    [json.loads] and [json.dumps]; these two instantiate them on concrete
    wire text. *)

Module JsonLite.

Definition is_ws (a : ascii) : bool :=
  let n := nat_of_ascii a in
  (n =? 32)%nat || (n =? 9)%nat || (n =? 10)%nat || (n =? 13)%nat.

Fixpoint skip_ws (s : string) : string :=
  match s with
  | String a s' => if is_ws a then skip_ws s' else s
  | EmptyString => s
  end.

Definition digit_of (a : ascii) : option Z :=
  let n := nat_of_ascii a in
  if (48 <=? n)%nat && (n <=? 57)%nat then Some (Z.of_nat (n - 48)) else None.

Fixpoint read_digits (acc : Z) (s : string) : Z * string :=
  match s with
  | String a s' =>
      match digit_of a with
      | Some d => read_digits (10 * acc + d) s'
      | None => (acc, s)
      end
  | EmptyString => (acc, s)
  end.

(** After the sign: one digit, no leading zero, no fraction, no exponent. *)
Definition read_nat (s : string) : option (Z * string) :=
  match s with
  | String a s' =>
      match digit_of a with
      | Some d =>
          let '(n, rest) := if d =? 0 then (0, s') else read_digits d s' in
          match rest with
          | String b _ =>
              if match digit_of b with Some _ => true | None => false end
                 || Ascii.eqb b "." || Ascii.eqb b "e" || Ascii.eqb b "E"
              then None else Some (n, rest)
          | EmptyString => Some (n, rest)
          end
      | None => None
      end
  | EmptyString => None
  end.

Definition dquote : ascii := ascii_of_nat 34.
Definition backslash : ascii := ascii_of_nat 92.

Definition unescape (a : ascii) : option ascii :=
  if Ascii.eqb a dquote then Some dquote
  else if Ascii.eqb a backslash then Some backslash
  else if Ascii.eqb a "/" then Some "/"%char
  else if Ascii.eqb a "n" then Some (ascii_of_nat 10)
  else if Ascii.eqb a "t" then Some (ascii_of_nat 9)
  else if Ascii.eqb a "r" then Some (ascii_of_nat 13)
  else if Ascii.eqb a "b" then Some (ascii_of_nat 8)
  else if Ascii.eqb a "f" then Some (ascii_of_nat 12)
  else None.

(** The characters of a string literal after its opening quote. *)
Fixpoint read_string (s : string) : option (string * string) :=
  match s with
  | EmptyString => None
  | String a s' =>
      if Ascii.eqb a dquote then Some (EmptyString, s')
      else if Ascii.eqb a backslash then
        match s' with
        | String b s'' =>
            match unescape b, read_string s'' with
            | Some c, Some (body, rest) => Some (String c body, rest)
            | _, _ => None
            end
        | EmptyString => None
        end
      else if (nat_of_ascii a <? 32)%nat then None
      else match read_string s' with
           | Some (body, rest) => Some (String a body, rest)
           | None => None
           end
  end.

Fixpoint read_value (fuel : nat) (s : string) : option (pyval * string) :=
  match fuel with
  | O => None
  | S fuel' =>
      let s := skip_ws s in
      if startswith "null" s then Some (PNone, slice_from 4 s)
      else if startswith "true" s then Some (PBool true, slice_from 4 s)
      else if startswith "false" s then Some (PBool false, slice_from 5 s)
      else match s with
           | String a s' =>
               if Ascii.eqb a dquote then
                 match read_string s' with
                 | Some (body, rest) => Some (PStr body, rest)
                 | None => None
                 end
               else if Ascii.eqb a "-" then
                 match read_nat s' with
                 | Some (n, rest) => Some (PInt (- n), rest)
                 | None => None
                 end
               else if Ascii.eqb a "[" then
                 match skip_ws s' with
                 | String b s'' =>
                     if Ascii.eqb b "]" then Some (PList [], s'')
                     else match read_items fuel' s' with
                          | Some (l, rest) => Some (PList l, rest)
                          | None => None
                          end
                 | EmptyString => None
                 end
               else if Ascii.eqb a "{" then
                 match skip_ws s' with
                 | String b s'' =>
                     if Ascii.eqb b "}" then Some (PDict [], s'')
                     else match read_members fuel' [] s' with
                          | Some (d, rest) => Some (PDict d, rest)
                          | None => None
                          end
                 | EmptyString => None
                 end
               else match read_nat s with
                    | Some (n, rest) => Some (PInt n, rest)
                    | None => None
                    end
           | EmptyString => None
           end
  end
with read_items (fuel : nat) (s : string) : option (list pyval * string) :=
  match fuel with
  | O => None
  | S fuel' =>
      match read_value fuel' s with
      | Some (v, rest) =>
          match skip_ws rest with
          | String b rest' =>
              if Ascii.eqb b "]" then Some ([v], rest')
              else if Ascii.eqb b "," then
                match read_items fuel' rest' with
                | Some (l, rest'') => Some (v :: l, rest'')
                | None => None
                end
              else None
          | EmptyString => None
          end
      | None => None
      end
  end
with read_members (fuel : nat) (acc : pydict) (s : string) : option (pydict * string) :=
  match fuel with
  | O => None
  | S fuel' =>
      match skip_ws s with
      | String q s1 =>
          if Ascii.eqb q dquote then
            match read_string s1 with
            | Some (k, s2) =>
                match skip_ws s2 with
                | String c s3 =>
                    if Ascii.eqb c ":" then
                      match read_value fuel' s3 with
                      | Some (v, rest) =>
                          let acc' := dict_set k v acc in
                          match skip_ws rest with
                          | String b rest' =>
                              if Ascii.eqb b "}" then Some (acc', rest')
                              else if Ascii.eqb b "," then read_members fuel' acc' rest'
                              else None
                          | EmptyString => None
                          end
                      | None => None
                      end
                    else None
                | EmptyString => None
                end
            | None => None
            end
          else None
      | EmptyString => None
      end
  end.

(** A whole document: one value and nothing but white space after it. *)
Definition json_loads (doc : string) : option pyval :=
  match read_value (S (2 * String.length doc)) doc with
  | Some (v, rest) =>
      match skip_ws rest with
      | EmptyString => Some v
      | String _ _ => None
      end
  | None => None
  end.

(** The writer, with the separators [json.dumps] uses by default. *)

Definition string_of_Z (z : Z) : string := NilEmpty.string_of_int (Z.to_int z).

Definition hex_digit (n : nat) : ascii :=
  if (n <? 10)%nat then ascii_of_nat (48 + n) else ascii_of_nat (87 + n).

Definition escaped (a : ascii) : string := String backslash (String a EmptyString).

Definition escape (a : ascii) : string :=
  let n := nat_of_ascii a in
  if Ascii.eqb a dquote then escaped dquote
  else if Ascii.eqb a backslash then escaped backslash
  else if (n =? 10)%nat then escaped "n"
  else if (n =? 13)%nat then escaped "r"
  else if (n =? 9)%nat then escaped "t"
  else if (n =? 8)%nat then escaped "b"
  else if (n =? 12)%nat then escaped "f"
  else if (n <? 32)%nat then
    String backslash
      ("u00" ++ String (hex_digit (n / 16)) (String (hex_digit (n mod 16)) EmptyString))
  else String a EmptyString.

Fixpoint escape_all (s : string) : string :=
  match s with
  | EmptyString => EmptyString
  | String a s' => escape a ++ escape_all s'
  end.

Definition quote (s : string) : string :=
  String dquote (escape_all s ++ String dquote EmptyString).

Fixpoint join (sep : string) (l : list string) : string :=
  match l with
  | [] => EmptyString
  | [x] => x
  | x :: l' => x ++ sep ++ join sep l'
  end.

(** Floats are written by their class only; the fragment has none. *)
Definition float_token (f : spec_float) : string :=
  match f with
  | S754_zero false => "0.0"
  | S754_zero true => "-0.0"
  | S754_infinity false => "Infinity"
  | S754_infinity true => "-Infinity"
  | S754_nan => "NaN"
  | S754_finite s m e =>
      (if s then "-" else EmptyString) ++ string_of_Z (Z.pos m) ++ "p" ++ string_of_Z e
  end.

Fixpoint json_dumps (v : pyval) : string :=
  match v with
  | PNone => "null"
  | PBool true => "true"
  | PBool false => "false"
  | PInt z => string_of_Z z
  | PFloat f => float_token f
  | PStr s => quote s
  | PList l => "[" ++ join ", " (map json_dumps l) ++ "]"
  | PDict d =>
      "{" ++ join ", " (map (fun kv => quote (fst kv) ++ ": " ++ json_dumps (snd kv)) d)
          ++ "}"
  end.

End JsonLite.

(** ** The class [Pipe] *)

Module Pipe.

Import Stream.

(** [Pipe.Valves] *)
Record Valves : Type := {
  OPENROUTER_API_BASE_URL : string;
  OPENROUTER_API_KEY : string;
  FREE_ONLY : bool;
  DEBUG : bool;
  REQUEST_TIMEOUT : Z
}.

(** The defaults of the fields of [Valves]. *)
Definition default_valves : Valves :=
  {| OPENROUTER_API_BASE_URL := "https://openrouter.ai/api/v1";
     OPENROUTER_API_KEY := EmptyString;
     FREE_ONLY := false;
     DEBUG := false;
     REQUEST_TIMEOUT := 300 |}.

(** What the module uses of an HTTP response: whether
    [raise_for_status()] raises, and the body [response.json()] decodes. *)
Record Response : Type := {
  status_error : option exn;
  text : string
}.

(** A streamed response: its status, the lines [aiter_lines()] delivers
    and the failure, if any, that ends the delivery. *)
Record StreamResponse : Type := {
  stream_status_error : option exn;
  lines : list string;
  failure : option exn
}.

(** The objects in memory that the host shares with [pipe]: request
    bodies, by location. *)
Definition loc : Type := nat.
Abbreviation store := (gmap loc pydict).

(** What [pipe] hands back to the host.  A coroutine or an asynchronous
    generator is handed back unstarted; its payload is what the host
    observes when it awaits or drains it. *)
Inductive pipe_value : Type :=
| Coroutine (awaited : result pyval)
| AsyncGenerator (drained : run)
| Str (s : string).

Section WithWorld.

Variable valves : Valves.
Variable json_loads : string -> option pyval.
Variable json_dumps : pyval -> string.
Variable time_time : nat -> Z.
(** [str(exc)] *)
Variable str_exc : exn -> string.
(** [str(v)] for a [v] that is not a string *)
Variable py_repr : pyval -> string.
(** [requests.get(url, headers=..., timeout=30)] *)
Variable requests_get : string -> pydict -> result Response.
(** [client.post(url, json=..., headers=...)] of an [httpx.AsyncClient] *)
Variable client_post : string -> pyval -> pydict -> result Response.
(** [client.stream("POST", url, json=..., headers=...)] *)
Variable client_stream : string -> pyval -> pydict -> result StreamResponse.

(** [str(v)], which is what an f-string does to [v] *)
Definition py_str (v : pyval) : string :=
  match v with
  | PStr s => s
  | _ => py_repr v
  end.

Definition _get_headers : pydict :=
  [ ("Authorization", PStr ("Bearer " ++ OPENROUTER_API_KEY valves));
    ("Content-Type", PStr "application/json");
    ("HTTP-Referer", PStr "https://chat.aionx.be/");
    ("X-Title", PStr "Aionx Open WebUI") ].

(** [response.raise_for_status()] *)
Definition raise_for_status (e : option exn) : result unit :=
  match e with
  | Some exc => Raise exc
  | None => Ok tt
  end.

(** [_handle_response]: both handlers re-raise, after an optional print. *)
Definition _handle_response (response : Response) : result pyval :=
  _ <- raise_for_status (status_error response) ;;
  loads json_loads (text response).

(** The entry of the second comprehension of [pipes]. *)
Definition model_entry (model : pyval) : result pyval :=
  id <- py_get model "id" (PStr "unknown") ;;
  name <- py_get model "name" (PStr "Unknown Model") ;;
  Ok (PDict [("id", id); ("name", name)]).

(** The condition of the first comprehension of [pipes]. *)
Definition is_free (model : pyval) : result bool :=
  id <- py_get model "id" (PStr EmptyString) ;;
  low <- py_lower id ;;
  Ok (str_contains "free" low).

(** The body of the [try] of [pipes].  The f-string handed to [_debug]
    is built whether or not [DEBUG] is set, so [len(models_data)] is
    always evaluated. *)
Definition pipes_try : result (list pyval) :=
  let url := OPENROUTER_API_BASE_URL valves ++ "/models" in
  response <- requests_get url _get_headers ;;
  json <- _handle_response response ;;
  models_data <- py_get json "data" (PList []) ;;
  _ <- py_len models_data ;;
  models_data <- (if FREE_ONLY valves then
                    items <- py_iter models_data ;;
                    kept <- for_filter is_free items ;;
                    Ok (PList kept)
                  else Ok models_data) ;;
  items <- py_iter models_data ;;
  for_each model_entry items.

(** [Pipe.pipes] *)
Definition pipes : list pyval :=
  match pipes_try with
  | Ok l => l
  | Raise exc => [PDict [("id", PStr "openrouter"); ("name", PStr (str_exc exc))]]
  end.

(** The body of the [for choice in data["choices"]] loop, as the value
    [choice] holds afterwards.  The f-string reads
    [choice['message']['content']] before the assignment stores into
    [choice["message"]]; the store back into [choice] stands for the
    mutation in place and cannot raise where it is reached. *)
Definition reshape_choice (choice : pyval) : result pyval :=
  has_message <- py_contains "message" choice ;;
  if has_message : bool then
    message <- py_getitem choice "message" ;;
    has_reasoning <- py_contains "reasoning" message ;;
    if has_reasoning : bool then
      reasoning <- py_getitem message "reasoning" ;;
      content <- py_getitem message "content" ;;
      message' <- py_setitem message "content"
                    (PStr ("<think>" ++ py_str reasoning ++ "</think>" ++ nl
                             ++ py_str content)) ;;
      py_setitem choice "message" message'
    else Ok choice
  else Ok choice.

(** [data["choices"]] after the loop: a list holds the mutated entries;
    iterating a dict or a string goes through immutable strings. *)
Definition after_loop (choices : pyval) (entries : list pyval) : pyval :=
  match choices with
  | PList _ => PList entries
  | _ => choices
  end.

(** The reshape of [_handle_normal_request], from [data = response.json()]
    to [return data]. *)
Definition reshape_document (data : pyval) : result pyval :=
  has_choices <- py_contains "choices" data ;;
  if has_choices : bool then
    choices <- py_getitem data "choices" ;;
    entries <- py_iter choices ;;
    entries' <- for_each reshape_choice entries ;;
    py_setitem data "choices" (after_loop choices entries')
  else Ok data.

Definition completions_url : string :=
  OPENROUTER_API_BASE_URL valves ++ "/chat/completions".

(** [Pipe._handle_normal_request], awaited *)
Definition _handle_normal_request (body : pydict) : result pyval :=
  response <- client_post completions_url (PDict body) _get_headers ;;
  _ <- raise_for_status (status_error response) ;;
  data <- loads json_loads (text response) ;;
  reshape_document data.

Definition raised (e : exn) : run := Run [] (Raised e) (-1) [].

(** [Pipe._handle_streaming_request], drained *)
Definition _handle_streaming_request (body : pydict) : run :=
  match client_stream completions_url (PDict body) _get_headers with
  | Raise e => raised e
  | Ok response =>
      match stream_status_error response with
      | Some e => raised e
      | None =>
          let r := reshape_lines json_loads json_dumps time_time body (lines response) in
          match finish r, failure response with
          | Exhausted, Some e => Run (emitted r) (Raised e) (phase r) []
          | _, _ => r
          end
      end
  end.

(** [model.split(".", 1)[-1].replace("reasoning/", "", 1)] *)
Definition normalize_model (model : pyval) : result pyval :=
  tail <- py_split1_last model "." ;;
  Ok (PStr (replace1 "reasoning/" EmptyString tail)).

(** Lines 133 to 140 of [pipe]: the copy [{**body}], the rewrite of
    ["model"] and the flag.  A location that holds no dict stands for an
    argument that is not a mapping. *)
Definition normalize (body : loc) (sigma : store) : store * result loc :=
  match sigma !! body with
  | None => (sigma, Raise (TypeError "mapping" PNone))
  | Some d =>
      let modified_body := fresh (dom sigma) in
      let sigma1 := <[modified_body := d]> sigma in
      if dict_has "model" d then
        match py_getitem (PDict d) "model" with
        | Raise e => (sigma1, Raise e)
        | Ok model =>
            match normalize_model model with
            | Raise e => (sigma1, Raise e)
            | Ok model' =>
                let d1 := dict_set "model" model' d in
                (<[modified_body := dict_set "include_reasoning" (PBool true) d1]> sigma1,
                 Ok modified_body)
            end
        end
      else
        (<[modified_body := dict_set "include_reasoning" (PBool true) d]> sigma1,
         Ok modified_body)
  end.

(** [Pipe.pipe], up to the [return]: the store it leaves and the value
    it returns or the exception it raises. *)
Definition pipe (body : loc) (sigma : store) : store * result pipe_value :=
  match normalize body sigma with
  | (sigma', Raise e) => (sigma', Raise e)
  | (sigma', Ok modified_body) =>
      let original := default [] (sigma' !! body) in
      let modified := default [] (sigma' !! modified_body) in
      (sigma',
       try_except
         (stream <- py_get (PDict original) "stream" (PBool false) ;;
          if truthy stream
          then Ok (AsyncGenerator (_handle_streaming_request modified))
          else Ok (Coroutine (_handle_normal_request modified)))
         (fun exc =>
            let error_msg := "Error processing request: " ++ str_exc exc in
            Ok (Str (json_dumps (PDict [("error", PStr error_msg)])))))
  end.

End WithWorld.

End Pipe.

(** ** The vocabulary of the specification *)

Module Spec.

Import Stream.

(** The model identifier as the specification words it: the part after the
    first ".", less a leading "reasoning/". *)
Definition spec_normalize_model (model : string) : string :=
  let tail := split1_last "." model in
  if startswith "reasoning/" tail then slice_from 10 tail else tail.

(** The line feed, by its code. *)
Definition LF : ascii := "010"%char.

(** The termination line as the specification spells it: data: [DONE]
    and two line feeds. *)
Definition spec_done_line : string :=
  "data: [DONE]" ++ String LF (String LF EmptyString).

(** An output chunk as the specification frames it: the event prefix,
    the JSON text of the envelope with its id, the object kind, the time
    of creation, the model and one choice of index 0 whose delta holds the
    content and the assistant role and whose finish_reason is null, then
    two line feeds. *)
Definition spec_chunk (json_dumps : pyval -> string)
  (id : pyval) (created : Z) (model content : pyval) : string :=
  "data: "
  ++ json_dumps
       (PDict [ ("id", id);
                ("object", PStr "chat.completion.chunk");
                ("created", PInt created);
                ("model", model);
                ("choices",
                  PList [ PDict [ ("index", PInt 0);
                                  ("delta", PDict [ ("content", content);
                                                    ("role", PStr "assistant") ]);
                                  ("finish_reason", PNone) ] ]) ])
  ++ String LF (String LF EmptyString).

(** The content of a chunk, read back from the wire: the content of the
    delta of the first choice of the JSON text after the event prefix. *)
Definition chunk_content (json_loads : string -> option pyval) (s : string)
  : option pyval :=
  if startswith "data: " s then
    match json_loads (slice_from 6 s) with
    | Some (PDict envelope) =>
        match dict_lookup "choices" envelope with
        | Some (PList (PDict choice :: _)) =>
            match dict_lookup "delta" choice with
            | Some (PDict delta) => dict_lookup "content" delta
            | _ => None
            end
        | _ => None
        end
    | _ => None
    end
  else None.

(** The first choice of an event, when it is a mapping: the head of the
    choices list, or the empty mapping when the event has no such list. *)
Definition event_choice (data : pydict) : option pydict :=
  match dict_lookup "choices" data with
  | None => Some []
  | Some (PList (PDict choice :: _)) => Some choice
  | Some _ => None
  end.

(** The delta of a choice, when it is a mapping: the delta entry, or the
    empty mapping when the choice has none. *)
Definition event_delta (choice : pydict) : option pydict :=
  match dict_lookup "delta" choice with
  | None => Some []
  | Some (PDict delta) => Some delta
  | Some _ => None
  end.


(** A terminal event: a data line whose JSON text is a mapping, whose
    first choice is a mapping that carries a terminal-reason marker that
    counts as true, and whose delta is absent or a mapping. *)
Definition terminal_event (json_loads : string -> option pyval) (line : string) : Prop :=
  exists payload data choice delta marker,
    line = "data: " ++ payload /\
    json_loads payload = Some (PDict data) /\
    event_choice data = Some choice /\
    event_delta choice = Some delta /\
    dict_lookup "finish_reason" choice = Some marker /\
    truthy marker = true.

(** A framed chunk, as opposed to the termination line. *)
Definition is_chunk (json_dumps : pyval -> string) (s : string) : Prop :=
  exists c, s = frame json_dumps (PDict c).

(** The moves [thinking_state] may make in one turn of the loop. *)
Definition phase_step (a b : Z) : Prop :=
  b = a \/ (a = -1 /\ b = 0) \/ (a = 0 /\ b = 1).

(** The event of an upstream chunk whose first choice is [choice]. *)
Definition event (id : string) (choice : pydict) : pyval :=
  PDict [("id", PStr id); ("choices", PList [PDict choice])].

(** The non-streaming reshape of one entry of the choices list, as the
    specification words it: when the message carries a reasoning field,
    its content becomes the reasoning between the marker tags, a line
    feed, then the original content; any other entry is left as it is.
    [str] is the interpolation of a value into the text. *)
Definition spec_reshape_entry (str : pyval -> string) (entry : pyval) : pyval :=
  match entry with
  | PDict choice =>
      match dict_lookup "message" choice with
      | Some (PDict message) =>
          match dict_lookup "reasoning" message, dict_lookup "content" message with
          | Some reasoning, Some content =>
              let text := "<think>" ++ str reasoning ++ "</think>" ++ nl ++ str content in
              PDict (dict_set "message"
                       (PDict (dict_set "content" (PStr text) message)) choice)
          | _, _ => entry
          end
      | _ => entry
      end
  | _ => entry
  end.

(** The entries the non-streaming reshape is specified on: mappings whose
    message, when present, is a mapping that has a content whenever it has
    a reasoning. *)
Definition entry_ok (entry : pyval) : bool :=
  match entry with
  | PDict choice =>
      match dict_lookup "message" choice with
      | None => true
      | Some (PDict message) =>
          negb (dict_has "reasoning" message) || dict_has "content" message
      | Some _ => false
      end
  | _ => false
  end.

(** One entry of the model listing, as the specification words it: the
    pair of the id and the name of a fetched model. *)
Definition spec_listing_entry (model : pyval) : pyval :=
  match model with
  | PDict m => PDict [ ("id", dict_get "id" m (PStr "unknown"));
                       ("name", dict_get "name" m (PStr "Unknown Model")) ]
  | _ => model
  end.

(** The id of the model contains "free", whatever the case of its
    letters. *)
Definition spec_has_free (model : pyval) : bool :=
  match model with
  | PDict m =>
      match dict_lookup "id" m with
      | Some (PStr id) => str_contains "free" (lower id)
      | _ => false
      end
  | _ => false
  end.

(** The fetched entries the listing is specified on: mappings whose id,
    when present, is a string. *)
Definition model_ok (model : pyval) : bool :=
  match model with
  | PDict m =>
      match dict_lookup "id" m with
      | None | Some (PStr _) => true
      | Some _ => false
      end
  | _ => false
  end.

(** The content the loop body outputs for a delta: the reasoning when it
    counts as true, otherwise the content or the empty string. *)
Definition content_of (delta : pydict) : pyval :=
  if truthy (dict_get "reasoning" delta PNone)
  then dict_get "reasoning" delta PNone
  else dict_get "content" delta (PStr EmptyString).

End Spec.

(** ** A concrete world for the examples *)

Module Scenario.

Import Stream Pipe.

(** The clock: one second per reading. *)
Definition clock (n : nat) : Z := 1700000000 + Z.of_nat n.

(** A rendering of [str(exc)]. *)
Definition str_exc (e : exn) : string :=
  match e with
  | AttributeError _ attr => "object has no attribute " ++ attr
  | TypeError op _ => "unsupported operand for " ++ op
  | KeyError _ => "key"
  | IndexError => "index out of range"
  | JSONDecodeError _ => "Expecting value"
  | HTTPError detail => detail
  | TransportError detail => detail
  end.

(** A rendering of [str(v)] for the values that are not strings. *)
Definition py_repr (v : pyval) : string :=
  match v with
  | PNone => "None"
  | PBool true => "True"
  | PBool false => "False"
  | _ => JsonLite.json_dumps v
  end.

(** An upstream that answers every completion request with a server
    error. *)
Definition failing_post : string -> pyval -> pydict -> result Response :=
  fun _ _ _ => Ok {| status_error := Some (HTTPError "500 Internal Server Error");
                     text := "upstream failure" |}.

Definition failing_stream : string -> pyval -> pydict -> result StreamResponse :=
  fun _ _ _ => Ok {| stream_status_error := Some (HTTPError "500 Internal Server Error");
                     lines := []; failure := None |}.

(** A request for a completion in one piece. *)
Definition request : pydict :=
  [ ("model", PStr "openrouter.reasoning/deepseek-r1");
    ("messages", PList [PDict [("role", PStr "user"); ("content", PStr "hi")]]);
    ("temperature", PInt 1) ].

(** The same request, streamed. *)
Definition stream_request : pydict := dict_set "stream" (PBool true) request.

(** A request whose model is not a string. *)
Definition bad_request : pydict := [("model", PNone)].

(** The caller's memory: the three requests at locations 0, 1 and 2. *)
Definition caller_store : gmap nat pydict :=
  {[ 0%nat := request; 1%nat := stream_request; 2%nat := bad_request ]}.

(** The events of a streamed answer that reasons, then answers, then
    stops, and their text on the wire. *)
Definition ev1 : pyval := Spec.event "gen-1" [("delta", PDict [("reasoning", PStr "a")])].
Definition ev2 : pyval := Spec.event "gen-1" [("delta", PDict [("reasoning", PStr "b")])].
Definition ev3 : pyval := Spec.event "gen-1" [("delta", PDict [("content", PStr "c")])].
Definition ev4 : pyval := Spec.event "gen-1" [("delta", PDict [("content", PStr "d")])].
Definition ev5 : pyval := Spec.event "gen-1" [("finish_reason", PStr "stop")].

Definition wire (ev : pyval) : string := "data: " ++ JsonLite.json_dumps ev.


Definition answer_lines : list string := [wire ev1; wire ev2; wire ev3; wire ev4].
Definition scenario_lines : list string := (answer_lines ++ [wire ev5])%list.

(** A model listing, the upstream that serves it, one that cannot be
    reached, and the valves with FREE_ONLY set. *)
Definition models : list pyval :=
  [ PDict [("id", PStr "meta/llama-3:free"); ("name", PStr "Llama 3 (free)")];
    PDict [("id", PStr "openai/gpt-4"); ("name", PStr "GPT-4")];
    PDict [("id", PStr "acme/FREE-model")] ].

Definition listing : pydict := [("data", PList models)].

Definition serve_listing : string -> pydict -> result Response :=
  fun _ _ => Ok {| status_error := None; text := JsonLite.json_dumps (PDict listing) |}.

Definition unreachable : string -> pydict -> result Response :=
  fun _ _ => Raise (TransportError "connection refused").

Definition free_valves : Valves :=
  {| OPENROUTER_API_BASE_URL := OPENROUTER_API_BASE_URL default_valves;
     OPENROUTER_API_KEY := OPENROUTER_API_KEY default_valves;
     FREE_ONLY := true;
     DEBUG := DEBUG default_valves;
     REQUEST_TIMEOUT := REQUEST_TIMEOUT default_valves |}.

(** A completion in one piece: one choice with a reasoning trace, one
    without. *)
Definition entries : list pyval :=
  [ PDict [ ("index", PInt 0);
            ("message", PDict [ ("role", PStr "assistant");
                                ("reasoning", PStr "R");
                                ("content", PStr "C") ]) ];
    PDict [ ("index", PInt 1);
            ("message", PDict [ ("role", PStr "assistant");
                                ("content", PStr "plain") ]) ] ].

Definition document : pydict :=
  [ ("id", PStr "gen-2"); ("choices", PList entries); ("model", PStr "deepseek-r1") ].

Definition reshaped_document : pydict :=
  [ ("id", PStr "gen-2");
    ("choices",
      PList [ PDict [ ("index", PInt 0);
                      ("message", PDict [ ("role", PStr "assistant");
                                          ("reasoning", PStr "R");
                                          ("content", PStr ("<think>R</think>" ++ nl ++ "C")) ]) ];
              PDict [ ("index", PInt 1);
                      ("message", PDict [ ("role", PStr "assistant");
                                          ("content", PStr "plain") ]) ] ]);
    ("model", PStr "deepseek-r1") ].

End Scenario.

(** ** Further notions *)

Module Notions.

Import Stream Pipe Spec.

(** A line the loop looks at: it starts with the event prefix. *)
Definition is_data_line (line : string) : bool := startswith "data: " line.

(** One server-sent event on the wire: the prefix, a payload, two line
    feeds. *)
Definition framed (s : string) : Prop :=
  exists payload, s = "data: " ++ payload ++ nl ++ nl.

(** Chunks that carry the model [model] and whose [created] fields are the
    successive readings of the clock from the n-th on. *)
Inductive stamped (json_dumps : pyval -> string) (time_time : nat -> Z)
  (model : pyval) : nat -> list string -> Prop :=
| stamped_nil n : stamped json_dumps time_time model n []
| stamped_cons n id content rest :
    stamped json_dumps time_time model (S n) rest ->
    stamped json_dumps time_time model n
      (spec_chunk json_dumps id (time_time n) model content :: rest).

(** The reasoning fragment of the event a data line carries, when the
    line carries an event (a mapping whose first choice and delta are
    mappings); [None] stands in for an absent fragment. *)
Definition reasoning_of (json_loads : string -> option pyval) (line : string)
  : option pyval :=
  if startswith "data: " line then
    match json_loads (slice_from 6 line) with
    | Some (PDict d) =>
        match first_choice (PDict d) with
        | Ok (PDict c) =>
            match dict_get "delta" c (PDict []) with
            | PDict delta => Some (dict_get "reasoning" delta PNone)
            | _ => None
            end
        | _ => None
        end
    | _ => None
    end
  else None.

Definition carries_reasoning (json_loads : string -> option pyval) (line : string)
  : bool :=
  match reasoning_of json_loads line with
  | Some v => truthy v
  | None => false
  end.

(** The mapping [pipe] hands to its handlers for the request [d]. *)
Definition upstream_body (d : pydict) : pydict :=
  dict_set "include_reasoning" (PBool true)
    match dict_lookup "model" d with
    | Some (PStr model) =>
        dict_set "model" (PStr (replace1 "reasoning/" EmptyString (split1_last "." model))) d
    | _ => d
    end.

Definition is_mapping (v : pyval) : bool :=
  match v with PDict _ => true | _ => false end.

(** An entry of the choices list without a reasoning field: a mapping
    whose message, when present, is a mapping with no such key. *)
Definition plain_entry (entry : pyval) : bool :=
  match entry with
  | PDict choice =>
      match dict_lookup "message" choice with
      | None => true
      | Some (PDict message) => negb (dict_has "reasoning" message)
      | Some _ => false
      end
  | _ => false
  end.

(** An entry of the model listing: exactly an id and a name. *)
Definition listing_entry_shape (entry : pyval) : Prop :=
  exists id name, entry = PDict [("id", id); ("name", name)].

(** Whether a turn took the [return], and whether the loop did. *)
Definition stopped (r : result bool) : bool :=
  match r with Ok true => true | _ => false end.

Definition returned (r : result (bool * list string)) : bool :=
  match r with Ok (true, _) => true | _ => false end.

(** What a run yields last, by the way it ends. *)
Definition closing (e : ending) : list string :=
  match e with Returned => [done_line] | _ => [] end.

(** The same, as the specification spells the termination line. *)
Definition spec_closing (e : ending) : list string :=
  match e with Returned => [spec_done_line] | _ => [] end.

(** The single entry [pipes] falls back to. *)
Definition fallback_entry (str_exc : exn -> string) (exc : exn) : pyval :=
  PDict [("id", PStr "openrouter"); ("name", PStr (str_exc exc))].

End Notions.

(** ** More concrete cases *)

Module Cases.

Import Stream Pipe Spec Scenario.

(** The event some upstreams send last: no choice, only the usage. *)
Definition usage_event : pyval :=
  PDict [ ("id", PStr "gen-1"); ("choices", PList []);
          ("usage", PDict [("total_tokens", PInt 42)]) ].

(** An answer without reasoning, with a comment line in the middle. *)
Definition plain_lines : list string :=
  [wire ev3; ": keep-alive"; wire ev4; wire ev5].

(** An event whose delta holds both a reasoning and a content. *)
Definition both_event : pyval :=
  Spec.event "gen-1" [("delta", PDict [("reasoning", PStr "r"); ("content", PStr "x")])].

(** The event that only announces the role, with an empty content. *)
Definition role_event : pyval :=
  Spec.event "gen-1" [("delta", PDict [("role", PStr "assistant"); ("content", PStr EmptyString)])].

(** The state of the generator once it has answered, after three
    chunks. *)
Definition answered : gstate := GState 1 3.

(** A listing with an entry whose id is a number, and the upstreams that
    serve it, an empty document, and a null data. *)
Definition mixed_models : list pyval :=
  [ PDict [("id", PStr "meta/llama-3:free"); ("name", PStr "Llama 3 (free)")];
    PDict [("id", PInt 7); ("name", PStr "seven")];
    PDict [("name", PStr "nameless")] ].

Definition mixed_listing : pydict := [("object", PStr "list"); ("data", PList mixed_models)].

Definition serve (document : pydict) : string -> pydict -> result Response :=
  fun _ _ => Ok {| status_error := None; text := JsonLite.json_dumps (PDict document) |}.

Definition no_data : pydict := [("object", PStr "list")].
Definition null_data : pydict := [("data", PNone)].

(** A completion whose second choice has a reasoning and no content. *)
Definition bad_document : pydict :=
  [ ("id", PStr "gen-3");
    ("choices",
      PList [ PDict [("message", PDict [("role", PStr "assistant"); ("content", PStr "ok")])];
              PDict [("message", PDict [("role", PStr "assistant"); ("reasoning", PStr "R")])] ]) ].

(** A completion without any reasoning. *)
Definition plain_choices : list pyval :=
  [ PDict [("index", PInt 0);
           ("message", PDict [("role", PStr "assistant"); ("content", PStr "ok")])];
    PDict [("index", PInt 1); ("finish_reason", PStr "stop")] ].

Definition plain_document : pydict :=
  [ ("id", PStr "gen-4"); ("choices", PList plain_choices); ("usage", PNone) ].

End Cases.

(** * Properties *)

Import Stream Pipe Spec.

Section Properties.

Variable json_loads : string -> option pyval.
Variable json_dumps : pyval -> string.
Variable time_time : nat -> Z.
Variable valves : Valves.
Variable str_exc : exn -> string.
Variable py_repr : pyval -> string.
Variable requests_get : string -> pydict -> result Response.
Variable client_post : string -> pyval -> pydict -> result Response.
Variable client_stream : string -> pyval -> pydict -> result StreamResponse.

Local Abbreviation construct_chunk := (Stream.construct_chunk json_dumps time_time).
Local Abbreviation state_transitions := (Stream.state_transitions json_dumps time_time).
Local Abbreviation content_output := (Stream.content_output json_dumps time_time).
Local Abbreviation process_line := (Stream.process_line json_loads json_dumps time_time).
Local Abbreviation loop := (Stream.loop json_loads json_dumps time_time).
Local Abbreviation run_from := (Stream.run_from json_loads json_dumps time_time).
Local Abbreviation reshape_lines := (Stream.reshape_lines json_loads json_dumps time_time).
Local Abbreviation frame := (Stream.frame json_dumps).
Local Abbreviation terminal := (reaches_return json_loads).
Local Abbreviation is_chunk := (Spec.is_chunk json_dumps).
Local Abbreviation py_str := (Pipe.py_str py_repr).
Local Abbreviation reshape_choice := (Pipe.reshape_choice py_repr).
Local Abbreviation reshape_document := (Pipe.reshape_document py_repr).
Local Abbreviation spec_reshape_entry := (Spec.spec_reshape_entry py_str).
Local Abbreviation pipes_try := (Pipe.pipes_try valves json_loads requests_get).
Local Abbreviation pipes := (Pipe.pipes valves json_loads str_exc requests_get).
Local Abbreviation pipe :=
  (Pipe.pipe valves json_loads json_dumps time_time str_exc py_repr
     client_post client_stream).
Local Abbreviation models_url := (OPENROUTER_API_BASE_URL valves ++ "/models")%string.
Local Abbreviation headers := (_get_headers valves).
Local Open Scope list_scope.
Local Abbreviation turn := (Stream.turn json_dumps time_time).

(** The chunk [construct_chunk(content)] builds when [data] is the
    mapping [d] and the clock is read for the n-th time. *)
Local Abbreviation chunk body d n content :=
  (frame (chunk_data (dict_get "id" d (PStr EmptyString)) (time_time n)
            (dict_get "model" body (PStr "unknown")) content)).

Lemma gbind_eval_ok {A B} (a : A) (k : A -> gen B) st :
  gbind (eval (Ok a)) k st = k a st.
Proof. unfold gbind, eval. destruct (k a st) as [[out st'] r]. reflexivity. Qed.

Lemma gbind_eval_raise {A B} e (k : A -> gen B) st :
  gbind (eval (Raise e)) k st = ([], st, Raise e).
Proof. reflexivity. Qed.

(** The first four statements of a turn on a data line. *)
Lemma process_line_data body line st :
  startswith "data: " line = true ->
  process_line body line st
  = gbind (eval (loads json_loads (slice_from 6 line))) (fun data =>
    gbind (eval (first_choice data)) (fun choice =>
    gbind (eval (py_get choice "delta" (PDict []))) (fun delta =>
    gbind (state_transitions body data delta) (fun _ =>
    gbind (content_output body data delta) (fun _ =>
    gbind (eval (py_get choice "finish_reason" PNone)) (fun finish_reason =>
      if truthy finish_reason
      then gbind (yield done_line) (fun _ => gret true)
      else gret false)))))) st.
Proof. intros H. unfold Stream.process_line. rewrite H. reflexivity. Qed.

Lemma construct_chunk_dict body d content st :
  construct_chunk body (PDict d) content st
  = ([], tick st, Ok (chunk body d (clock_reads st) content)).
Proof. reflexivity. Qed.

(** The [if]/[elif] on a delta that is a mapping, in closed form. *)
Lemma state_transitions_dict body d delta st :
  state_transitions body (PDict d) (PDict delta) st
  = if (thinking_state st =? -1) && truthy (dict_get "reasoning" delta PNone)
    then ([chunk body d (clock_reads st) (PStr "<think>")],
          GState 0 (S (clock_reads st)), Ok tt)
    else if (thinking_state st =? 0)
            && negb (truthy (dict_get "reasoning" delta PNone))
            && truthy (dict_get "content" delta PNone)
    then ([chunk body d (clock_reads st) (PStr ("</think>" ++ nl ++ nl)%string)],
          GState 1 (S (clock_reads st)), Ok tt)
    else ([], st, Ok tt).
Proof.
  destruct st as [ts n]. unfold Stream.state_transitions, gbind, get_thinking_state.
  cbn [thinking_state clock_reads].
  destruct (ts =? -1) eqn:E1.
  - apply Z.eqb_eq in E1. subst ts. cbn.
    destruct (truthy (dict_get "reasoning" delta PNone)); reflexivity.
  - cbn. destruct (ts =? 0) eqn:E0; cbn; [|reflexivity].
    destruct (truthy (dict_get "reasoning" delta PNone)); cbn; [reflexivity|].
    destruct (truthy (dict_get "content" delta PNone)); reflexivity.
Qed.

Lemma content_output_dict body d delta st :
  content_output body (PDict d) (PDict delta) st
  = if truthy (content_of delta)
    then ([chunk body d (clock_reads st) (content_of delta)], tick st, Ok tt)
    else ([], st, Ok tt).
Proof.
  unfold Stream.content_output, content_of, gbind. cbn.
  destruct (truthy (dict_get "reasoning" delta PNone)) eqn:Er; cbn.
  - rewrite Er. reflexivity.
  - destruct (truthy (dict_get "content" delta (PStr EmptyString))); reflexivity.
Qed.

(** A delta that is not a mapping: [delta.get] raises before anything
    is yielded, whatever the state. *)
Lemma delta_not_dict body data delta (k : gen bool) st :
  (forall dl, delta <> PDict dl) ->
  gbind (state_transitions body data delta)
    (fun _ => gbind (content_output body data delta) (fun _ => k)) st
  = ([], st, Raise (AttributeError delta "get")).
Proof.
  intros Hnd. destruct st as [ts n].
  assert (Hget : forall key dflt, py_get delta key dflt = Raise (AttributeError delta "get")).
  { intros. destruct delta; try reflexivity. exfalso. eapply Hnd. reflexivity. }
  unfold gbind, Stream.state_transitions, Stream.content_output, gbind,
    get_thinking_state, eval. cbn [thinking_state clock_reads].
  rewrite !Hget.
  destruct (ts =? -1) eqn:E1; cbn; [reflexivity|].
  destruct (ts =? 0) eqn:E0; cbn; reflexivity.
Qed.

Lemma process_line_skip body line st :
  startswith "data: " line = false ->
  process_line body line st = ([], st, Ok false).
Proof. intros H. unfold Stream.process_line. rewrite H. reflexivity. Qed.

Lemma process_line_event body line d c delta st :
  startswith "data: " line = true ->
  json_loads (slice_from 6 line) = Some (PDict d) ->
  first_choice (PDict d) = Ok (PDict c) ->
  dict_get "delta" c (PDict []) = PDict delta ->
  process_line body line st = turn body d c delta st.
Proof.
  intros Hp Hl Hc Hd. rewrite process_line_data by assumption.
  unfold loads. rewrite Hl, gbind_eval_ok, Hc, gbind_eval_ok.
  cbn [py_get]. rewrite Hd, gbind_eval_ok. unfold Stream.turn.
  unfold gbind at 1. rewrite state_transitions_dict.
  set (T := if (thinking_state st =? -1) && _ then _ else _).
  assert (HT : exists o1 st1, T = (o1, st1, Ok tt)).
  { subst T. repeat match goal with
      | |- context [if ?b then _ else _] => destruct b
      end; eauto. }
  destruct HT as (o1 & st1 & ->).
  unfold gbind at 1. rewrite content_output_dict.
  destruct (truthy (content_of delta)); cbn;
    destruct (truthy (dict_get "finish_reason" c PNone)); cbn;
    rewrite ?app_nil_r; reflexivity.
Qed.

(** Every line is skipped, or raises before it yields anything, or is
    the line of a well-formed event. *)
Lemma process_line_inv body line st :
  (startswith "data: " line = false /\ process_line body line st = ([], st, Ok false))
  \/ (startswith "data: " line = true /\ ~ terminal line
      /\ exists e, process_line body line st = ([], st, Raise e))
  \/ (exists d c delta,
        startswith "data: " line = true
        /\ json_loads (slice_from 6 line) = Some (PDict d)
        /\ first_choice (PDict d) = Ok (PDict c)
        /\ dict_get "delta" c (PDict []) = PDict delta
        /\ process_line body line st = turn body d c delta st).
Proof.
  destruct (startswith "data: " line) eqn:Hp.
  2:{ left. split; [reflexivity|]. now apply process_line_skip. }
  right. rewrite process_line_data by assumption. unfold loads.
  destruct (json_loads (slice_from 6 line)) as [data|] eqn:Hl.
  2:{ left. split; [reflexivity|]. split.
      - intros (_ & d & c & dl & H & _). congruence.
      - eexists. apply gbind_eval_raise. }
  rewrite gbind_eval_ok.
  assert (Hdata : (exists d, data = PDict d) \/ forall d, data <> PDict d).
  { destruct data; try (right; congruence). left. eauto. }
  destruct Hdata as [[d ->]|Hnd].
  2:{ left. split; [reflexivity|]. split.
      - intros (_ & d & c & dl & H & _). congruence.
      - exists (AttributeError data "get").
        destruct data; try apply gbind_eval_raise. exfalso. eapply Hnd. reflexivity. }
  destruct (first_choice (PDict d)) as [choice|e] eqn:Hc.
  2:{ left. split; [reflexivity|]. split.
      - intros (_ & d' & c & dl & H & H' & _). congruence.
      - exists e. apply gbind_eval_raise. }
  rewrite gbind_eval_ok.
  assert (Hch : (exists c, choice = PDict c) \/ forall c, choice <> PDict c).
  { destruct choice; try (right; congruence). left. eauto. }
  destruct Hch as [[c ->]|Hnc].
  2:{ left. split; [reflexivity|]. split.
      - intros (_ & d' & c & dl & H & H' & _). congruence.
      - exists (AttributeError choice "get").
        destruct choice; try apply gbind_eval_raise. exfalso. eapply Hnc. reflexivity. }
  cbn [py_get]. rewrite gbind_eval_ok.
  destruct (dict_get "delta" c (PDict [])) as [| | | | | |delta] eqn:Hd.
  7:{ right. exists d, c, delta. repeat split; try assumption; try reflexivity.
      rewrite <- (process_line_event body line d c delta st) by assumption.
      rewrite process_line_data by assumption. unfold loads.
      rewrite Hl, gbind_eval_ok, Hc, gbind_eval_ok. cbn [py_get].
      rewrite Hd, gbind_eval_ok. reflexivity. }
  all: left; split; [reflexivity|]; split;
    [ intros (_ & d' & c' & dl & H & H' & H'' & _); congruence
    | eexists; apply delta_not_dict; congruence ].
Qed.

Lemma phase_step_le a b : phase_step a b -> a <= b.
Proof. unfold phase_step. lia. Qed.

Lemma phase_step_trans_range a b :
  phase_step a b -> -1 <= a <= 1 -> -1 <= b <= 1.
Proof. unfold phase_step. lia. Qed.

Lemma is_chunk_chunk id created model content :
  is_chunk (frame (chunk_data id created model content)).
Proof. eexists. reflexivity. Qed.

(** The shape of a turn on a well-formed event: framed chunks, then the
    termination line exactly when the marker counts as true. *)
Lemma turn_shape body d c delta st :
  exists chunks st',
    turn body d c delta st
    = (chunks ++ (if truthy (dict_get "finish_reason" c PNone) then [done_line] else []),
       st', Ok (truthy (dict_get "finish_reason" c PNone)))
    /\ Forall is_chunk chunks
    /\ phase_step (thinking_state st) (thinking_state st').
Proof.
  unfold Stream.turn. rewrite state_transitions_dict.
  destruct st as [ts n]. cbn [thinking_state clock_reads].
  destruct ((ts =? -1) && truthy (dict_get "reasoning" delta PNone)) eqn:E1;
    [|destruct ((ts =? 0) && negb (truthy (dict_get "reasoning" delta PNone))
                && truthy (dict_get "content" delta PNone)) eqn:E2];
    rewrite content_output_dict; cbn [thinking_state clock_reads tick];
    destruct (truthy (content_of delta));
    destruct (truthy (dict_get "finish_reason" c PNone));
    lazymatch goal with
    | |- exists _ _, (?o1 ++ ?o2 ++ _, ?s, _) = _ /\ _ => exists (o1 ++ o2), s
    | |- exists _ _, (?o1 ++ ?o2, ?s, _) = _ /\ _ => exists (o1 ++ o2), s
    end;
    (split; [reflexivity|]);
    (split; [cbn [app]; repeat (constructor 2; [apply is_chunk_chunk|]);
             constructor 1|]);
    unfold phase_step, tick; cbn [thinking_state];
    try (apply andb_true_iff in E1; destruct E1 as [E1 _]; apply Z.eqb_eq in E1);
    try (apply andb_true_iff in E2; destruct E2 as [E2 _];
         apply andb_true_iff in E2; destruct E2 as [E2 _]; apply Z.eqb_eq in E2);
    lia.
Qed.

Lemma terminal_iff line d c delta :
  startswith "data: " line = true ->
  json_loads (slice_from 6 line) = Some (PDict d) ->
  first_choice (PDict d) = Ok (PDict c) ->
  dict_get "delta" c (PDict []) = PDict delta ->
  terminal line <-> truthy (dict_get "finish_reason" c PNone) = true.
Proof.
  intros Hp Hl Hc Hd. split.
  - intros (_ & d' & c' & dl & H & H' & _ & Hf). congruence.
  - intros Hf. split; [assumption|]. exists d, c, delta. auto.
Qed.

(** Every turn yields framed chunks and moves the phase forward at most
    one step; it ends with the termination line and the [return]
    exactly on a terminal event. *)
Lemma process_line_cases body line st :
  exists chunks st',
    Forall is_chunk chunks
    /\ phase_step (thinking_state st) (thinking_state st')
    /\ ((terminal line
         /\ process_line body line st = (chunks ++ [done_line], st', Ok true))
        \/ (~ terminal line
            /\ exists r, process_line body line st = (chunks, st', r)
                         /\ r <> Ok true)).
Proof.
  destruct (process_line_inv body line st)
    as [[Hp ->]|[(Hp & Hnt & e & ->)|(d & c & delta & Hp & Hl & Hc & Hd & ->)]].
  - exists [], st. split; [constructor|]. split; [left; reflexivity|].
    right. split.
    + intros (H & _). congruence.
    + eexists. split; [reflexivity|discriminate].
  - exists [], st. split; [constructor|]. split; [left; reflexivity|].
    right. split; [assumption|]. eexists. split; [reflexivity|discriminate].
  - destruct (turn_shape body d c delta st) as (chunks & st' & -> & Hch & Hph).
    exists chunks, st'. split; [assumption|]. split; [assumption|].
    pose proof (terminal_iff line d c delta Hp Hl Hc Hd) as Ht.
    destruct (truthy (dict_get "finish_reason" c PNone)).
    + left. split; [apply Ht; reflexivity|reflexivity].
    + right. split; [intros H; apply Ht in H; discriminate|].
      eexists. rewrite app_nil_r. split; [reflexivity|discriminate].
Qed.

(** *** The loop *)

Lemma loop_cons body line rest st :
  loop body (line :: rest) st
  = match process_line body line st with
    | (out, st', Ok true) => (out, st', Ok (true, rest))
    | (out, st', Ok false) =>
        let '(out2, st2, r) := loop body rest st' in (out ++ out2, st2, r)
    | (out, st', Raise e) => (out, st', Raise e)
    end.
Proof.
  cbn [Stream.loop]. unfold gbind at 1.
  destruct (process_line body line st) as [[out st'] [[|]|e]]; cbn.
  - rewrite app_nil_r. reflexivity.
  - destruct (loop body rest st') as [[out2 st2] r]. reflexivity.
  - reflexivity.
Qed.

(** Reading a prefix to its end and then the rest is reading the whole. *)
Lemma loop_app body pre post st o1 s1 :
  loop body pre st = (o1, s1, Ok (false, [])) ->
  loop body (pre ++ post) st
  = let '(out2, st2, r) := loop body post s1 in (o1 ++ out2, st2, r).
Proof.
  revert st o1. induction pre as [|line pre IH]; intros st o1 H.
  - cbn in H. inversion H. subst. cbn [app].
    destruct (loop body post s1) as [[out2 st2] r]. reflexivity.
  - cbn [app]. rewrite loop_cons in *.
    destruct (process_line body line st) as [[out st'] [[|]|e]]; try discriminate.
    destruct (loop body pre st') as [[o2 s2] r2] eqn:E. inversion H. subst.
    rewrite (IH _ _ E).
    destruct (loop body post s1) as [[out3 st3] r3]. rewrite app_assoc. reflexivity.
Qed.

(** What the loop has done when it stops, by the way it stops. *)
Lemma loop_spec body lines st :
  exists out st' r,
    loop body lines st = (out, st', r)
    /\ thinking_state st <= thinking_state st'
    /\ (-1 <= thinking_state st <= 1 -> -1 <= thinking_state st' <= 1)
    /\ match r with
       | Ok (true, rest) =>
           exists pre line chunks o1 s1,
             lines = pre ++ line :: rest
             /\ loop body pre st = (o1, s1, Ok (false, []))
             /\ terminal line
             /\ out = chunks ++ [done_line]
             /\ Forall is_chunk chunks
       | Ok (false, rest) => rest = [] /\ Forall is_chunk out
       | Raise e => Forall is_chunk out
       end.
Proof.
  revert st. induction lines as [|line rest IH]; intros st.
  - exists [], st, (Ok (false, [])). cbn. repeat split; try lia. constructor.
  - rewrite loop_cons.
    destruct (process_line_cases body line st)
      as (chunks & st' & Hch & Hph & [[Ht E]|(Hnt & r & E & Hr)]); rewrite E.
    + eexists _, _, _. split; [reflexivity|].
      split; [now apply phase_step_le|].
      split; [now apply phase_step_trans_range|].
      exists [], line, chunks, [], st.
      split; [reflexivity|]. split; [reflexivity|]. split; [assumption|].
      split; [reflexivity|assumption].
    + destruct r as [[|]|e]; [congruence| |].
      * destruct (IH st') as (out2 & st2 & r2 & E2 & Hle & Hrange & Hr2).
        rewrite E2.
        eexists _, _, _. split; [reflexivity|].
        apply phase_step_le in Hph as Hle1.
        split; [lia|].
        split; [intros Hs; apply Hrange; eapply phase_step_trans_range; eauto|].
        destruct r2 as [[[|] rest2]|e].
        -- destruct Hr2 as (pre & l & ch2 & o1 & s1 & -> & Hpre & Htl & -> & Hch2).
           exists (line :: pre), l, (chunks ++ ch2), (chunks ++ o1), s1.
           split; [reflexivity|]. split; [|split; [assumption|split]].
           ++ rewrite loop_cons, E, Hpre. reflexivity.
           ++ now rewrite app_assoc.
           ++ apply Forall_app. auto.
        -- destruct Hr2 as [-> Hf]. split; [reflexivity|]. apply Forall_app. auto.
        -- apply Forall_app. auto.
      * eexists _, _, _. split; [reflexivity|].
        split; [now apply phase_step_le|].
        split; [now apply phase_step_trans_range|]. assumption.
Qed.

Lemma exhausted_loop body lines st :
  finish (run_from st body lines) = Exhausted ->
  exists o1 s1, loop body lines st = (o1, s1, Ok (false, [])).
Proof.
  unfold Stream.run_from.
  destruct (loop_spec body lines st) as (out & st' & r & E & _ & _ & Hr).
  rewrite E. destruct r as [[[|] rest]|e]; cbn; try discriminate.
  destruct Hr as [-> _]. eauto.
Qed.





(** A run that has stopped on a prefix does the same on the whole. *)
Lemma loop_app_stop body pre post st o1 s1 r :
  loop body pre st = (o1, s1, r) ->
  (forall rest, r <> Ok (false, rest)) ->
  exists r', loop body (pre ++ post) st = (o1, s1, r')
             /\ (forall rest, r' <> Ok (false, rest)).
Proof.
  revert st o1. induction pre as [|line pre IH]; intros st o1 H Hr.
  - cbn in H. inversion H. subst. exfalso. eapply Hr. reflexivity.
  - cbn [app]. rewrite loop_cons in *.
    destruct (process_line body line st) as [[out st'] [[|]|e]].
    + inversion H. subst. eexists. split; [reflexivity|]. discriminate.
    + destruct (loop body pre st') as [[o2 s2] r2] eqn:E. inversion H. subst.
      destruct (IH _ _ E Hr) as (r' & -> & Hr'). eexists. split; [reflexivity|].
      assumption.
    + inversion H. subst. eexists. split; [reflexivity|]. discriminate.
Qed.

Lemma run_from_phase body lines st :
  thinking_state st <= phase (run_from st body lines)
  /\ (-1 <= thinking_state st <= 1 -> -1 <= phase (run_from st body lines) <= 1).
Proof.
  unfold Stream.run_from.
  destruct (loop_spec body lines st) as (out & st' & r & E & Hle & Hrange & _).
  rewrite E. destruct r as [[[|] rest]|e]; cbn [phase]; auto.
Qed.

(** The phase after a prefix of the lines is at most the phase after
    all of them. *)
Lemma run_from_prefix_phase body pre post st :
  phase (run_from st body pre) <= phase (run_from st body (pre ++ post)).
Proof.
  destruct (loop body pre st) as [[o1 s1] r] eqn:E.
  assert (Hcase : (exists rest, r = Ok (false, rest)) \/ forall rest, r <> Ok (false, rest)).
  { destruct r as [[[|] rest]|e]; [right; discriminate|left; eauto|right; discriminate]. }
  destruct Hcase as [[rest ->]|Hstop].
  - destruct (loop_spec body pre st) as (out & st' & r & E' & _ & _ & Hr).
    rewrite E in E'. injection E' as <- <- <-. destruct Hr as [-> _].
    pose proof (run_from_phase body post s1) as [Hle _].
    unfold Stream.run_from in *. rewrite (loop_app body pre post st o1 s1 E), E.
    cbn [phase]. destruct (loop body post s1) as [[out2 st2] [[[|] rest]|e]];
      cbn [phase] in *; assumption.
  - destruct (loop_app_stop body pre post st o1 s1 r E Hstop) as (r' & E' & Hr').
    unfold Stream.run_from. rewrite E, E'.
    destruct r as [[[|] rest]|e]; destruct r' as [[[|] rest']|e']; cbn [phase];
      try lia; exfalso; (eapply Hstop || eapply Hr'); reflexivity.
Qed.

Lemma state_transitions_not_dict body data delta st :
  (forall dl, delta <> PDict dl) ->
  exists r, state_transitions body data delta st = ([], st, r).
Proof.
  intros Hnd. destruct st as [ts n].
  assert (Hget : forall key dflt, py_get delta key dflt = Raise (AttributeError delta "get")).
  { intros. destruct delta; try reflexivity. exfalso. eapply Hnd. reflexivity. }
  unfold Stream.state_transitions, gbind, get_thinking_state, eval.
  cbn [thinking_state clock_reads]. rewrite !Hget.
  destruct (ts =? -1) eqn:E1; cbn; [eauto|].
  destruct (ts =? 0) eqn:E0; cbn; eauto.
Qed.

Lemma state_transitions_answered body data delta st :
  thinking_state st = 1 ->
  state_transitions body data delta st = ([], st, Ok tt).
Proof.
  destruct st as [ts n]. cbn [thinking_state]. intros ->. reflexivity.
Qed.

(** *** The claims on the streaming reshape *)

(** *** The output, as the specification spells it *)

Lemma startswith_iff p s :
  startswith p s = true <-> exists t, s = (p ++ t)%string.
Proof.
  revert s. induction p as [|a p IH]; intros s; cbn [startswith].
  - split; [intros _; exists s; reflexivity|reflexivity].
  - destruct s as [|b s].
    + split; [discriminate|intros [t H]; discriminate].
    + destruct (Ascii.eqb_spec a b) as [<-|Hne].
      * rewrite IH. split; intros [t H]; exists t.
        -- now subst s.
        -- now injection H.
      * split; [discriminate|]. intros [t H]. injection H as H1 _. now subst.
Qed.


Lemma chunk_spelled id created model content :
  frame (chunk_data id created model content)
  = spec_chunk json_dumps id created model content.
Proof. reflexivity. Qed.

(** The first choice and the delta of an event, as the code reads
    them. *)
Lemma event_choice_first d c :
  event_choice d = Some c -> first_choice (PDict d) = Ok (PDict c).
Proof.
  unfold first_choice, event_choice. cbn [py_get bind]. unfold dict_get.
  destruct (dict_lookup "choices" d) as [[| | | | |[|[| | | | | |c'] l]|]|];
    try discriminate; intros H; injection H as <-; reflexivity.
Qed.

Lemma event_delta_get c delta :
  event_delta c = Some delta -> dict_get "delta" c (PDict []) = PDict delta.
Proof.
  unfold event_delta, dict_get.
  destruct (dict_lookup "delta" c) as [[| | | | | |dl]|];
    try discriminate; intros H; injection H as <-; reflexivity.
Qed.

(** The terminal events are the lines on which a turn takes the
    [return]. *)
Lemma terminal_event_iff line : terminal_event json_loads line <-> terminal line.
Proof.
  split.
  - intros (payload & data & choice & delta & marker & -> & Hl & Hc & Hd & Hm & Ht).
    split; [reflexivity|]. exists data, choice, delta.
    change (slice_from 6 ("data: " ++ payload)%string) with payload.
    split; [assumption|]. split; [|split].
    + now apply event_choice_first.
    + now apply event_delta_get.
    + unfold dict_get. now rewrite Hm.
  - intros (Hp & data & choice & delta & Hl & Hc & Hd & Ht).
    apply startswith_iff in Hp. destruct Hp as [payload ->].
    change (slice_from 6 ("data: " ++ payload)%string) with payload in Hl.
    unfold dict_get in Ht.
    destruct (dict_lookup "finish_reason" choice) as [marker|] eqn:Hm; [|discriminate].
    exists payload, data, choice, delta, marker.
    split; [reflexivity|]. split; [assumption|]. split; [|split; [|auto]].
    + unfold first_choice, event_choice in *. cbn [py_get bind] in Hc. unfold dict_get in Hc.
      destruct (dict_lookup "choices" data) as [[| | | | [|a t]|[|x l]|]|];
        cbn [py_first] in Hc; try discriminate; injection Hc as ->; reflexivity.
    + unfold event_delta, dict_get in *.
      destruct (dict_lookup "delta" choice) as [v|]; [now subst v|].
      injection Hd as <-. reflexivity.
Qed.

(** C1.  On the five data lines whose events carry the deltas
    {reasoning: a}, {reasoning: b}, {content: c}, {content: d} and then a
    first choice with finish_reason stop, the generator yields, in this
    order, the chunks with contents <think>, a, b, </think> and two line
    feeds, c, d, each framed as the specification frames a chunk, then
    the literal line data: [DONE] with its two line feeds, and returns:
    nothing else is yielded and no line is left unread.  The id of each
    chunk is that of the event being handled, and the clock is read once
    per chunk. *)
Theorem streaming_scenario body i1 i2 i3 i4 i5 p1 p2 p3 p4 p5 :
  json_loads p1 = Some (event i1 [("delta", PDict [("reasoning", PStr "a")])]) ->
  json_loads p2 = Some (event i2 [("delta", PDict [("reasoning", PStr "b")])]) ->
  json_loads p3 = Some (event i3 [("delta", PDict [("content", PStr "c")])]) ->
  json_loads p4 = Some (event i4 [("delta", PDict [("content", PStr "d")])]) ->
  json_loads p5 = Some (event i5 [("finish_reason", PStr "stop")]) ->
  let model := dict_get "model" body (PStr "unknown") in
  reshape_lines body
    [ "data: " ++ p1; "data: " ++ p2; "data: " ++ p3; "data: " ++ p4; "data: " ++ p5 ]%string
  = Run [ spec_chunk json_dumps (PStr i1) (time_time 0) model (PStr "<think>");
          spec_chunk json_dumps (PStr i1) (time_time 1) model (PStr "a");
          spec_chunk json_dumps (PStr i2) (time_time 2) model (PStr "b");
          spec_chunk json_dumps (PStr i3) (time_time 3) model
            (PStr ("</think>" ++ String LF (String LF EmptyString))%string);
          spec_chunk json_dumps (PStr i3) (time_time 4) model (PStr "c");
          spec_chunk json_dumps (PStr i4) (time_time 5) model (PStr "d");
          ("data: [DONE]" ++ String LF (String LF EmptyString))%string ]
        Returned 1 [].
Proof.
  intros H1 H2 H3 H4 H5 model. unfold Stream.reshape_lines, Stream.run_from.
  rewrite loop_cons.
  erewrite process_line_event; [|reflexivity|exact H1|reflexivity|reflexivity].
  cbn -[Stream.loop Stream.frame chunk_data]. rewrite loop_cons.
  erewrite process_line_event; [|reflexivity|exact H2|reflexivity|reflexivity].
  cbn -[Stream.loop Stream.frame chunk_data]. rewrite loop_cons.
  erewrite process_line_event; [|reflexivity|exact H3|reflexivity|reflexivity].
  cbn -[Stream.loop Stream.frame chunk_data]. rewrite loop_cons.
  erewrite process_line_event; [|reflexivity|exact H4|reflexivity|reflexivity].
  cbn -[Stream.loop Stream.frame chunk_data]. rewrite loop_cons.
  erewrite process_line_event; [|reflexivity|exact H5|reflexivity|reflexivity].
  reflexivity.
Qed.

(** C4.  The phase only moves forward.  The [if]/[elif] of a turn either
    leaves [thinking_state] alone and yields nothing, or moves it from
    -1 to 0 and yields the opening marker, or moves it from 0 to 1 and
    yields the closing marker; from 1 it yields nothing and changes
    nothing, whatever the delta holds, a reasoning fragment included.
    Hence a whole turn moves the phase by at most one step forward, the
    phase after a prefix of the lines is at most the phase after all of
    them, it stays between -1 and 1, and once it is 1 it remains 1. *)
Theorem phase_only_forward body :
  (forall d delta st out st' r,
      state_transitions body (PDict d) delta st = (out, st', r) ->
      (st' = st /\ out = [])
      \/ (thinking_state st = -1 /\ thinking_state st' = 0
          /\ out = [chunk body d (clock_reads st) (PStr "<think>")])
      \/ (thinking_state st = 0 /\ thinking_state st' = 1
          /\ out = [chunk body d (clock_reads st)
                      (PStr ("</think>" ++ nl ++ nl)%string)]))
  /\ (forall data delta st,
        thinking_state st = 1 ->
        state_transitions body data delta st = ([], st, Ok tt))
  /\ (forall line st out st' r,
        process_line body line st = (out, st', r) ->
        phase_step (thinking_state st) (thinking_state st'))
  /\ (forall pre post,
        -1 <= phase (reshape_lines body pre)
           <= phase (reshape_lines body (pre ++ post))
        /\ phase (reshape_lines body (pre ++ post)) <= 1)
  /\ (forall pre post,
        phase (reshape_lines body pre) = 1 ->
        phase (reshape_lines body (pre ++ post)) = 1).
Proof.
  assert (Hrun : forall pre post,
        -1 <= phase (reshape_lines body pre)
           <= phase (reshape_lines body (pre ++ post))
        /\ phase (reshape_lines body (pre ++ post)) <= 1).
  { intros pre post. unfold Stream.reshape_lines.
    pose proof (run_from_prefix_phase body pre post initial).
    pose proof (run_from_phase body pre initial) as [H1 _].
    pose proof (run_from_phase body (pre ++ post) initial) as [_ H2].
    cbn [thinking_state initial] in *. lia. }
  split; [|split; [|split; [|split]]].
  - intros d delta st out st' r H.
    assert (Hd : (exists dl, delta = PDict dl) \/ forall dl, delta <> PDict dl).
    { destruct delta; try (right; congruence). left. eauto. }
    destruct Hd as [[dl ->]|Hnd].
    + rewrite state_transitions_dict in H.
      destruct ((thinking_state st =? -1) && truthy (dict_get "reasoning" dl PNone)) eqn:E1;
        [|destruct ((thinking_state st =? 0)
                    && negb (truthy (dict_get "reasoning" dl PNone))
                    && truthy (dict_get "content" dl PNone)) eqn:E2];
        inversion H; subst; clear H.
      * right. left. apply andb_true_iff in E1. destruct E1 as [E1 _].
        apply Z.eqb_eq in E1. auto.
      * right. right. apply andb_true_iff in E2. destruct E2 as [E2 _].
        apply andb_true_iff in E2. destruct E2 as [E2 _].
        apply Z.eqb_eq in E2. auto.
      * left. auto.
    + destruct (state_transitions_not_dict body (PDict d) delta st Hnd) as [r' E].
      rewrite E in H. inversion H. subst. left. auto.
  - intros. now apply state_transitions_answered.
  - intros line st out st' r H.
    destruct (process_line_cases body line st)
      as (chunks & st'' & _ & Hph & [[_ E]|(_ & r' & E & _)]);
      rewrite E in H; inversion H; subst; assumption.
  - exact Hrun.
  - intros pre post H. specialize (Hrun pre post). lia.
Qed.


(** C9.  On a data line whose event is a mapping with no choices entry
    or with a non-empty choices list, taking the first choice does not
    raise: it is the head of the list, or the empty mapping when the
    entry is absent.  In the absent case the delta is empty too, and the
    turn yields nothing, changes no state and does not return. *)
Theorem first_choice_defensive body line st d :
  startswith "data: " line = true ->
  json_loads (slice_from 6 line) = Some (PDict d) ->
  (dict_lookup "choices" d = None
   \/ exists c cs, dict_lookup "choices" d = Some (PList (c :: cs))) ->
  first_choice (PDict d)
  = Ok (match dict_lookup "choices" d with
        | Some (PList (c :: _)) => c
        | _ => PDict []
        end)
  /\ (dict_lookup "choices" d = None ->
      py_get (PDict []) "delta" (PDict []) = Ok (PDict [])
      /\ process_line body line st = ([], st, Ok false)).
Proof.
  intros Hp Hl Hc. split.
  - unfold first_choice. cbn [py_get bind]. unfold dict_get.
    destruct Hc as [->|(c & cs & ->)]; reflexivity.
  - intros Hn. split; [reflexivity|].
    rewrite (process_line_event body line d [] [] st Hp Hl).
    + unfold Stream.turn. rewrite state_transitions_dict.
      cbn [dict_get dict_lookup truthy negb]. rewrite !andb_false_r.
      rewrite content_output_dict. reflexivity.
    + unfold first_choice. cbn [py_get bind]. unfold dict_get. rewrite Hn. reflexivity.
    + reflexivity.
Qed.

(** C10.  The upstream's own sentinel line, data: [DONE], is a data line
    like any other: [json.loads] is called on [DONE] and raises.  Where
    the loop reaches that line (the lines before it were read to the end
    without a terminal event), the generator yields what it yielded for
    those lines and then fails with the decoding error; it does not
    return, and the line is no terminal event. *)
Theorem upstream_sentinel_raises body pre post :
  json_loads "[DONE]" = None ->
  finish (reshape_lines body pre) = Exhausted ->
  let r := reshape_lines body (pre ++ "data: [DONE]" :: post) in
  emitted r = emitted (reshape_lines body pre)
  /\ finish r = Raised (JSONDecodeError "[DONE]")
  /\ ~ terminal_event json_loads "data: [DONE]".
Proof.
  intros Hl Hx r. subst r. unfold Stream.reshape_lines in *.
  destruct (exhausted_loop body pre initial Hx) as (o1 & s1 & Hpre).
  unfold Stream.run_from. rewrite (loop_app body pre _ initial o1 s1 Hpre), Hpre.
  rewrite loop_cons, process_line_data by reflexivity.
  cbn [slice_from]. unfold loads. rewrite Hl, gbind_eval_raise.
  cbn [emitted finish]. rewrite app_nil_r. split; [reflexivity|].
  split; [reflexivity|].
  intros Ht. apply terminal_event_iff in Ht.
  destruct Ht as (_ & d & c & dl & H & _). cbn [slice_from] in H. congruence.
Qed.

(** *** Dictionaries *)

Lemma dict_lookup_set_eq k v d : dict_lookup k (dict_set k v d) = Some v.
Proof.
  induction d as [|[k' v'] d IH]; cbn.
  - now rewrite String.eqb_refl.
  - destruct (String.eqb k k') eqn:E; cbn; rewrite E; [reflexivity|assumption].
Qed.

Lemma dict_lookup_set_ne k k' v d :
  k' <> k -> dict_lookup k' (dict_set k v d) = dict_lookup k' d.
Proof.
  intros Hne. induction d as [|[k0 v0] d IH]; cbn.
  - destruct (String.eqb_spec k' k); [contradiction|reflexivity].
  - destruct (String.eqb_spec k k0) as [<-|Hk]; cbn.
    + destruct (String.eqb_spec k' k); [contradiction|reflexivity].
    + destruct (String.eqb k' k0); [reflexivity|assumption].
Qed.

(** Storing under a key the mapping already has keeps the keys and
    their order. *)
Lemma dict_set_keys k v d :
  dict_has k d = true -> map fst (dict_set k v d) = map fst d.
Proof.
  unfold dict_has. induction d as [|[k0 v0] d IH]; cbn; [discriminate|].
  destruct (String.eqb k k0) eqn:E; cbn; [reflexivity|].
  intros H. now rewrite IH.
Qed.

(** *** The non-streaming reshape *)

Lemma reshape_choice_entry entry :
  entry_ok entry = true ->
  reshape_choice entry = Ok (spec_reshape_entry entry).
Proof.
  destruct entry as [| | | | | |choice]; try discriminate.
  unfold Pipe.reshape_choice, Spec.spec_reshape_entry, entry_ok.
  cbn [py_contains bind py_getitem]. unfold dict_has.
  destruct (dict_lookup "message" choice) as [message|]; [|reflexivity].
  destruct message as [| | | | | |message]; try discriminate.
  cbn [py_contains bind py_getitem]. unfold dict_has.
  destruct (dict_lookup "reasoning" message) as [reasoning|]; [|reflexivity].
  destruct (dict_lookup "content" message) as [content|]; [|discriminate].
  reflexivity.
Qed.

Lemma for_each_reshape_choice entries :
  forallb entry_ok entries = true ->
  for_each reshape_choice entries = Ok (map spec_reshape_entry entries).
Proof.
  induction entries as [|entry entries IH]; [reflexivity|].
  cbn [forallb for_each map]. intros H. apply andb_true_iff in H. destruct H as [H1 H2].
  rewrite reshape_choice_entry, IH by assumption. reflexivity.
Qed.

(** C6.  On a document that is a mapping whose choices entry is a list
    of well-formed entries, the reshape succeeds and returns the document
    with each entry of the list reshaped as specified: an entry whose
    message has reasoning R and content C gets the content
    <think> R </think>, a line feed, C (for strings R and C, exactly that
    concatenation), an entry without a reasoning field is returned as it
    is, and the document keeps its other fields, its keys and their
    order.  A document without a choices entry is returned as it is. *)
Theorem reshape_document_inlines_reasoning d entries :
  dict_lookup "choices" d = Some (PList entries) ->
  forallb entry_ok entries = true ->
  reshape_document (PDict d)
  = Ok (PDict (dict_set "choices" (PList (map spec_reshape_entry entries)) d))
  /\ (forall k, k <> "choices" ->
        dict_lookup k (dict_set "choices" (PList (map spec_reshape_entry entries)) d)
        = dict_lookup k d)
  /\ map fst (dict_set "choices" (PList (map spec_reshape_entry entries)) d) = map fst d
  /\ (forall choice message r c,
        dict_lookup "message" choice = Some (PDict message) ->
        dict_lookup "reasoning" message = Some (PStr r) ->
        dict_lookup "content" message = Some (PStr c) ->
        exists message',
          spec_reshape_entry (PDict choice) = PDict (dict_set "message" (PDict message') choice)
          /\ dict_lookup "content" message'
             = Some (PStr ("<think>" ++ r ++ "</think>" ++ nl ++ c)%string)
          /\ (forall k, k <> "content" -> dict_lookup k message' = dict_lookup k message))
  /\ (forall choice,
        (dict_lookup "message" choice = None
         \/ exists message, dict_lookup "message" choice = Some (PDict message)
                            /\ dict_lookup "reasoning" message = None) ->
        spec_reshape_entry (PDict choice) = PDict choice)
  /\ (forall d', dict_lookup "choices" d' = None ->
                 reshape_document (PDict d') = Ok (PDict d')).
Proof.
  intros Hc Hok. split; [|split; [|split; [|split; [|split]]]].
  - unfold Pipe.reshape_document. cbn [py_contains bind py_getitem]. unfold dict_has.
    rewrite Hc. cbn [py_iter bind]. rewrite for_each_reshape_choice by assumption.
    reflexivity.
  - intros k Hk. now apply dict_lookup_set_ne.
  - apply dict_set_keys. unfold dict_has. now rewrite Hc.
  - intros choice message r c Hm Hr Hcn. eexists.
    unfold Spec.spec_reshape_entry. rewrite Hm, Hr, Hcn. split; [reflexivity|].
    split; [apply dict_lookup_set_eq|]. intros k Hk. now apply dict_lookup_set_ne.
  - intros choice [Hm|(message & Hm & Hr)]; unfold Spec.spec_reshape_entry;
      rewrite Hm; [reflexivity|]. rewrite Hr. reflexivity.
  - intros d' Hn. unfold Pipe.reshape_document. cbn [py_contains bind]. unfold dict_has.
    rewrite Hn. reflexivity.
Qed.

(** *** Strings *)

Lemma find_startswith sub s : startswith sub s = true -> find sub s = Some 0%nat.
Proof. intros H. destruct s; simpl; rewrite H; reflexivity. Qed.

(** [sub in s] holds exactly when [s] is some text, then [sub], then some
    text. *)
Lemma str_contains_iff sub s :
  str_contains sub s = true <-> exists pre post, s = (pre ++ sub ++ post)%string.
Proof.
  unfold str_contains. split.
  - induction s as [|a s IH]; cbn [find].
    + destruct (startswith sub EmptyString) eqn:E; [|discriminate].
      intros _. apply startswith_iff in E. destruct E as [t ->].
      exists EmptyString, t. reflexivity.
    + destruct (startswith sub (String a s)) eqn:E.
      * intros _. apply startswith_iff in E. destruct E as [t ->].
        exists EmptyString, t. reflexivity.
      * destruct (find sub s); [|discriminate]. intros _.
        destruct (IH eq_refl) as (pre & post & ->).
        exists (String a pre), post. reflexivity.
  - intros (pre & post & ->). induction pre as [|a pre IH].
    + change (EmptyString ++ sub ++ post)%string with (sub ++ post)%string.
      assert (E : startswith sub (sub ++ post)%string = true)
        by (apply startswith_iff; eauto).
      now rewrite (find_startswith _ _ E).
    + change (String a pre ++ sub ++ post)%string
        with (String a (pre ++ sub ++ post))%string.
      simpl find.
      destruct (startswith sub (String a (pre ++ sub ++ post))); [reflexivity|].
      destruct (find sub (pre ++ sub ++ post)%string); [reflexivity|discriminate].
Qed.

(** *** The model listing *)

Lemma for_filter_is_free models :
  forallb model_ok models = true ->
  for_filter is_free models = Ok (List.filter spec_has_free models).
Proof.
  induction models as [|model models IH]; [reflexivity|].
  cbn [forallb for_filter List.filter]. intros H.
  apply andb_true_iff in H. destruct H as [H1 H2]. rewrite (IH H2).
  destruct model as [| | | | | |m]; try discriminate.
  unfold is_free, spec_has_free, model_ok in *. cbn [py_get bind]. unfold dict_get.
  destruct (dict_lookup "id" m) as [[| | | |id| |]|]; try discriminate; reflexivity.
Qed.

Lemma filter_model_ok models :
  forallb model_ok models = true ->
  forallb model_ok (List.filter spec_has_free models) = true.
Proof.
  induction models as [|model models IH]; [reflexivity|].
  cbn [forallb List.filter]. intros H. apply andb_true_iff in H. destruct H as [H1 H2].
  destruct (spec_has_free model); cbn [forallb]; rewrite ?H1; auto.
Qed.

Lemma for_each_model_entry models :
  forallb model_ok models = true ->
  for_each model_entry models = Ok (map spec_listing_entry models).
Proof.
  induction models as [|model models IH]; [reflexivity|].
  cbn [forallb for_each map]. intros H. apply andb_true_iff in H. destruct H as [H1 H2].
  rewrite (IH H2). destruct model; try discriminate. reflexivity.
Qed.

(** C8.  [pipes] always returns a list.  When the body of its [try]
    raises, for whatever reason (the request fails, the status is an
    error, the body is not JSON, an entry has the wrong shape), the list
    is the single entry with id openrouter and the text of the exception
    as its name.  With FREE_ONLY set and a well-formed fetch, the list is
    the id and name pairs of exactly the fetched entries whose id
    contains free in any case, in the order fetched. *)
Theorem pipes_best_effort :
  (forall e, pipes_try = Raise e ->
             pipes = [PDict [("id", PStr "openrouter"); ("name", PStr (str_exc e))]])
  /\ (forall l, pipes_try = Ok l -> pipes = l)
  /\ (forall e, requests_get models_url headers = Raise e -> pipes_try = Raise e)
  /\ (forall response e,
        requests_get models_url headers = Ok response ->
        status_error response = Some e -> pipes_try = Raise e)
  /\ (forall response,
        requests_get models_url headers = Ok response ->
        status_error response = None ->
        json_loads (text response) = None ->
        pipes_try = Raise (JSONDecodeError (text response)))
  /\ (forall response j models,
        FREE_ONLY valves = true ->
        requests_get models_url headers = Ok response ->
        status_error response = None ->
        json_loads (text response) = Some (PDict j) ->
        dict_lookup "data" j = Some (PList models) ->
        forallb model_ok models = true ->
        pipes = map spec_listing_entry (List.filter spec_has_free models)).
Proof.
  split; [|split; [|split; [|split; [|split]]]].
  - intros e H. unfold Pipe.pipes. rewrite H. reflexivity.
  - intros l H. unfold Pipe.pipes. rewrite H. reflexivity.
  - intros e H. unfold Pipe.pipes_try. rewrite H. reflexivity.
  - intros response e H Hs. unfold Pipe.pipes_try, _handle_response.
    rewrite H. cbn [bind]. rewrite Hs. reflexivity.
  - intros response H Hs Hl. unfold Pipe.pipes_try, _handle_response, loads.
    rewrite H. cbn [bind]. rewrite Hs, Hl. reflexivity.
  - intros response j models Hf H Hs Hl Hd Hok.
    unfold Pipe.pipes, Pipe.pipes_try, _handle_response, loads.
    rewrite H. cbn [bind]. rewrite Hs, Hl. cbn [raise_for_status bind py_get].
    unfold dict_get. rewrite Hd, Hf. cbn [py_len bind py_iter].
    rewrite for_filter_is_free by assumption. cbn [bind py_iter].
    rewrite for_each_model_entry by now apply filter_model_ok. reflexivity.
Qed.

(** *** The request normaliser *)

Lemma find_zero sub s : find sub s = Some 0%nat -> startswith sub s = true.
Proof.
  destruct s as [|a s]; cbn [find].
  - destruct (startswith sub EmptyString); [reflexivity|discriminate].
  - destruct (startswith sub (String a s)); [reflexivity|].
    destruct (find sub s); discriminate.
Qed.

Lemma find_none sub s : find sub s = None -> startswith sub s = false.
Proof.
  destruct s as [|a s]; cbn [find];
    destruct (startswith sub _); [discriminate|reflexivity|discriminate|reflexivity].
Qed.

(** Where "reasoning/" is absent from the part after the first ".", or
    leads it, the code and the specification agree. *)
Lemma normalize_model_prefix model :
  find "reasoning/" (split1_last "." model) = None
  \/ find "reasoning/" (split1_last "." model) = Some 0%nat ->
  normalize_model (PStr model) = Ok (PStr (spec_normalize_model model)).
Proof.
  unfold normalize_model, spec_normalize_model. cbn [py_split1_last bind].
  unfold replace1. intros [H|H]; rewrite H.
  - now rewrite (find_none _ _ H).
  - now rewrite (find_zero _ _ H).
Qed.

(** C3.  The code removes the first occurrence of "reasoning/" wherever
    it stands in the part after the first ".": on the model id
    a.b.reasoning/c it returns b.c, where the two steps of the
    specification (keep what follows the first ".", then drop a leading
    "reasoning/") give b.reasoning/c. *)
Theorem normalize_model_removes_inner_occurrence :
  normalize_model (PStr "a.b.reasoning/c") = Ok (PStr "b.c")
  /\ spec_normalize_model "a.b.reasoning/c" = "b.reasoning/c"%string.
Proof. split; reflexivity. Qed.

Lemma normalize_store body sigma d :
  sigma !! body = Some d ->
  forall l, is_Some (sigma !! l) -> (normalize body sigma).1 !! l = sigma !! l.
Proof.
  intros Hb l Hl. unfold normalize. rewrite Hb.
  assert (Hne : fresh (dom sigma) <> l).
  { intros <-. apply elem_of_dom in Hl. exact (is_fresh (dom sigma) Hl). }
  destruct (dict_has "model" d); [|cbn; now rewrite !lookup_insert_ne].
  destruct (py_getitem (PDict d) "model") as [model|e];
    [|cbn; now rewrite lookup_insert_ne].
  destruct (normalize_model model) as [model'|e]; cbn;
    now rewrite ?lookup_insert_ne.
Qed.

Lemma pipe_store body sigma : (pipe body sigma).1 = (normalize body sigma).1.
Proof.
  unfold Pipe.pipe. destruct (normalize body sigma) as [sigma' [m|e]]; reflexivity.
Qed.

(** C7.  The normaliser works on a copy at a fresh location: every
    mapping the caller holds, the request body first of all, is the same
    after the call as before, for the normaliser alone and for the whole
    of [pipe], whether they return or raise.  When the model is absent or
    a string the normaliser returns the copy, in which include_reasoning
    is true and every field other than model and include_reasoning has
    the value (or the absence) it has in the input. *)
Theorem normalize_leaves_caller_mapping body sigma d :
  sigma !! body = Some d ->
  (normalize body sigma).1 !! body = Some d
  /\ (pipe body sigma).1 !! body = Some d
  /\ (forall l, is_Some (sigma !! l) -> (pipe body sigma).1 !! l = sigma !! l)
  /\ ((dict_lookup "model" d = None \/ exists s, dict_lookup "model" d = Some (PStr s)) ->
      exists m d',
        (normalize body sigma).2 = Ok m
        /\ sigma !! m = None
        /\ (normalize body sigma).1 !! m = Some d'
        /\ dict_lookup "include_reasoning" d' = Some (PBool true)
        /\ (forall k, k <> "model" -> k <> "include_reasoning" ->
                      dict_lookup k d' = dict_lookup k d)).
Proof.
  intros Hb.
  assert (Hfresh : sigma !! fresh (dom sigma) = None).
  { apply not_elem_of_dom. apply is_fresh. }
  split; [|split; [|split]].
  - rewrite (normalize_store body sigma d Hb body); eauto.
  - rewrite pipe_store, (normalize_store body sigma d Hb body); eauto.
  - intros l Hl. rewrite pipe_store. now apply (normalize_store body sigma d).
  - intros Hm. unfold normalize. rewrite Hb. unfold dict_has. cbn [py_getitem].
    destruct Hm as [Hm|[s Hm]]; rewrite Hm; cbn [normalize_model py_split1_last bind].
    + eexists _, _. cbn [fst snd]. split; [reflexivity|]. split; [assumption|].
      split; [apply lookup_insert_eq|]. split; [apply dict_lookup_set_eq|].
      intros k _ Hk. now apply dict_lookup_set_ne.
    + eexists _, _. cbn [fst snd]. split; [reflexivity|]. split; [assumption|].
      split; [apply lookup_insert_eq|]. split; [apply dict_lookup_set_eq|].
      intros k Hk1 Hk2. now rewrite !dict_lookup_set_ne.
Qed.

(** *** The two handlers *)

(** With a response whose status is a success and whose body decodes,
    the awaited handler is the reshape of the decoded document. *)
Lemma handle_normal_request_reshapes body response data :
  client_post (completions_url valves) (PDict body) headers = Ok response ->
  status_error response = None ->
  json_loads (text response) = Some data ->
  _handle_normal_request valves json_loads py_repr client_post body
  = reshape_document data.
Proof.
  intros Hp Hs Hl. unfold _handle_normal_request, loads.
  rewrite Hp. cbn [bind]. rewrite Hs, Hl. reflexivity.
Qed.

(** An error status aborts the non-streaming handler before any reshape,
    and the streaming one before any chunk. *)
Lemma handlers_fail_fast body :
  (forall response e,
      client_post (completions_url valves) (PDict body) headers = Ok response ->
      status_error response = Some e ->
      _handle_normal_request valves json_loads py_repr client_post body = Raise e)
  /\ (forall response e,
        client_stream (completions_url valves) (PDict body) headers = Ok response ->
        stream_status_error response = Some e ->
        _handle_streaming_request valves json_loads json_dumps time_time
          client_stream body
        = Run [] (Raised e) (-1) []).
Proof.
  split; intros response e Hp Hs.
  - unfold _handle_normal_request. rewrite Hp. cbn [bind]. rewrite Hs. reflexivity.
  - unfold _handle_streaming_request. rewrite Hp, Hs. reflexivity.
Qed.

(** With a response whose status is a success and whose delivery does not
    fail, the drained generator is the run over the delivered lines. *)
Lemma handle_streaming_request_lines body response :
  client_stream (completions_url valves) (PDict body) headers = Ok response ->
  stream_status_error response = None ->
  failure response = None ->
  _handle_streaming_request valves json_loads json_dumps time_time client_stream body
  = reshape_lines body (lines response).
Proof.
  intros Hp Hs Hf. unfold _handle_streaming_request. rewrite Hp, Hs, Hf.
  destruct (finish _); reflexivity.
Qed.

(** *** The boundary of [pipe] *)

(** The handler of the [try] in [pipe] is never entered: the two calls
    it guards only create a coroutine or a generator. *)
Lemma pipe_never_returns_string body sigma s :
  (pipe body sigma).2 <> Ok (Str s).
Proof.
  unfold Pipe.pipe. destruct (normalize body sigma) as [sigma' [m|e]]; cbn [snd];
    [|discriminate].
  cbn [py_get bind try_except].
  destruct (truthy _); discriminate.
Qed.

End Properties.

(** *** The claims at concrete inputs *)

Section Concrete.

Import Scenario.

Local Abbreviation pipe :=
  (Pipe.pipe default_valves JsonLite.json_loads JsonLite.json_dumps clock
     str_exc py_repr failing_post failing_stream).
Local Abbreviation reshape_lines :=
  (Stream.reshape_lines JsonLite.json_loads JsonLite.json_dumps clock).
Local Abbreviation frame := (Stream.frame JsonLite.json_dumps).

(** C2.  Failures leave [pipe] by other ways than the error string.
    With an upstream that answers with a server error, the call for a
    completion in one piece returns an unstarted coroutine, and the error
    is raised when the host awaits it; the call for a streamed
    completion returns a generator, and the error is raised when the host
    draws from it; and a request whose model is not a string makes the
    normalising step raise before the [try] is entered. *)
Theorem pipe_failures_bypass_handler :
  (pipe 0%nat caller_store).2
  = Ok (Coroutine (Raise (HTTPError "500 Internal Server Error")))
  /\ (pipe 1%nat caller_store).2
     = Ok (AsyncGenerator (raised (HTTPError "500 Internal Server Error")))
  /\ (pipe 2%nat caller_store).2 = Raise (AttributeError PNone "split").
Proof. vm_compute. repeat split; reflexivity. Qed.

Lemma streaming_scenario_witness :
  reshape_lines request scenario_lines
  = Run [ spec_chunk JsonLite.json_dumps (PStr "gen-1") (clock 0)
            (PStr "openrouter.reasoning/deepseek-r1") (PStr "<think>");
          spec_chunk JsonLite.json_dumps (PStr "gen-1") (clock 1)
            (PStr "openrouter.reasoning/deepseek-r1") (PStr "a");
          spec_chunk JsonLite.json_dumps (PStr "gen-1") (clock 2)
            (PStr "openrouter.reasoning/deepseek-r1") (PStr "b");
          spec_chunk JsonLite.json_dumps (PStr "gen-1") (clock 3)
            (PStr "openrouter.reasoning/deepseek-r1")
            (PStr ("</think>" ++ String LF (String LF EmptyString))%string);
          spec_chunk JsonLite.json_dumps (PStr "gen-1") (clock 4)
            (PStr "openrouter.reasoning/deepseek-r1") (PStr "c");
          spec_chunk JsonLite.json_dumps (PStr "gen-1") (clock 5)
            (PStr "openrouter.reasoning/deepseek-r1") (PStr "d");
          ("data: [DONE]" ++ String LF (String LF EmptyString))%string ]%list
        Returned 1 []
  /\ map (chunk_content JsonLite.json_loads)
        (emitted (reshape_lines request scenario_lines))
     = [ Some (PStr "<think>"); Some (PStr "a"); Some (PStr "b");
         Some (PStr ("</think>" ++ String LF (String LF EmptyString))%string);
         Some (PStr "c"); Some (PStr "d"); None ]%list.
Proof.
  pose proof (streaming_scenario JsonLite.json_loads JsonLite.json_dumps clock request
                "gen-1" "gen-1" "gen-1" "gen-1" "gen-1"
                (JsonLite.json_dumps ev1) (JsonLite.json_dumps ev2)
                (JsonLite.json_dumps ev3) (JsonLite.json_dumps ev4)
                (JsonLite.json_dumps ev5)
                ltac:(vm_compute; reflexivity) ltac:(vm_compute; reflexivity)
                ltac:(vm_compute; reflexivity) ltac:(vm_compute; reflexivity)
                ltac:(vm_compute; reflexivity)) as H.
  split; [exact H|].
  change (reshape_lines request scenario_lines)
    with (reshape_lines request
            [ ("data: " ++ JsonLite.json_dumps ev1)%string;
              ("data: " ++ JsonLite.json_dumps ev2)%string;
              ("data: " ++ JsonLite.json_dumps ev3)%string;
              ("data: " ++ JsonLite.json_dumps ev4)%string;
              ("data: " ++ JsonLite.json_dumps ev5)%string ]%list).
  rewrite H. vm_compute. reflexivity.
Defined.






Lemma reshape_document_inlines_reasoning_witness :
  reshape_document py_repr (PDict document) = Ok (PDict reshaped_document).
Proof.
  exact (proj1 (reshape_document_inlines_reasoning py_repr document entries
                  eq_refl eq_refl)).
Defined.

Lemma normalize_leaves_caller_mapping_witness :
  (normalize 0%nat caller_store).1 !! 0%nat = Some request.
Proof.
  exact (proj1 (normalize_leaves_caller_mapping JsonLite.json_loads
                  JsonLite.json_dumps clock default_valves str_exc py_repr
                  failing_post failing_stream 0%nat caller_store request
                  ltac:(vm_compute; reflexivity))).
Defined.

Lemma first_choice_defensive_witness :
  first_choice (PDict []) = Ok (PDict [])
  /\ Stream.process_line JsonLite.json_loads JsonLite.json_dumps clock request
       "data: {}" initial
     = ([], initial, Ok false).
Proof.
  pose proof (first_choice_defensive JsonLite.json_loads JsonLite.json_dumps clock
                request "data: {}" initial [] eq_refl
                ltac:(vm_compute; reflexivity) (or_introl eq_refl)) as [H1 H2].
  split; [exact H1|exact (proj2 (H2 eq_refl))].
Defined.

Lemma pipes_best_effort_witness :
  Pipe.pipes free_valves JsonLite.json_loads str_exc serve_listing
  = [ PDict [("id", PStr "meta/llama-3:free"); ("name", PStr "Llama 3 (free)")];
      PDict [("id", PStr "acme/FREE-model"); ("name", PStr "Unknown Model")] ]%list
  /\ Pipe.pipes free_valves JsonLite.json_loads str_exc unreachable
     = [ PDict [("id", PStr "openrouter"); ("name", PStr "connection refused")] ]%list.
Proof.
  split.
  - exact (proj2 (proj2 (proj2 (proj2 (proj2
             (pipes_best_effort JsonLite.json_loads free_valves str_exc serve_listing)))))
             _ listing models eq_refl eq_refl eq_refl
             ltac:(vm_compute; reflexivity) eq_refl eq_refl).
  - exact (proj1 (pipes_best_effort JsonLite.json_loads free_valves str_exc unreachable)
             (TransportError "connection refused") eq_refl).
Defined.

Lemma upstream_sentinel_raises_witness :
  emitted (reshape_lines request (answer_lines ++ ["data: [DONE]"]))
  = emitted (reshape_lines request answer_lines)
  /\ finish (reshape_lines request (answer_lines ++ ["data: [DONE]"]))
     = Raised (JSONDecodeError "[DONE]")
  /\ ~ terminal_event JsonLite.json_loads "data: [DONE]".
Proof.
  exact (upstream_sentinel_raises JsonLite.json_loads JsonLite.json_dumps clock
           request answer_lines []
           ltac:(vm_compute; reflexivity) ltac:(vm_compute; reflexivity)).
Defined.

End Concrete.

(** * Further properties of the code *)

Import Notions.

Section Further.

Variable json_loads : string -> option pyval.
Variable json_dumps : pyval -> string.
Variable time_time : nat -> Z.
Variable valves : Valves.
Variable str_exc : exn -> string.
Variable py_repr : pyval -> string.
Variable requests_get : string -> pydict -> result Response.
Variable client_post : string -> pyval -> pydict -> result Response.
Variable client_stream : string -> pyval -> pydict -> result StreamResponse.

Local Abbreviation process_line := (Stream.process_line json_loads json_dumps time_time).
Local Abbreviation loop := (Stream.loop json_loads json_dumps time_time).
Local Abbreviation run_from := (Stream.run_from json_loads json_dumps time_time).
Local Abbreviation reshape_lines := (Stream.reshape_lines json_loads json_dumps time_time).
Local Abbreviation turn := (Stream.turn json_dumps time_time).
Local Abbreviation frame := (Stream.frame json_dumps).
Local Abbreviation is_chunk := (Spec.is_chunk json_dumps).
Local Abbreviation stamped := (Notions.stamped json_dumps time_time).
Local Abbreviation chunk body d n content :=
  (frame (chunk_data (dict_get "id" d (PStr EmptyString)) (time_time n)
            (dict_get "model" body (PStr "unknown")) content)).
Local Open Scope list_scope.

(** *** Lines that are not data lines *)

Lemma loop_filter body lines st :
  loop body (List.filter is_data_line lines) st
  = match loop body lines st with
    | (out, st', Ok (stop, rest)) => (out, st', Ok (stop, List.filter is_data_line rest))
    | (out, st', Raise e) => (out, st', Raise e)
    end.
Proof.
  revert st. induction lines as [|line rest IH]; intros st; [reflexivity|].
  cbn [List.filter]. rewrite (loop_cons _ _ _ body line rest st).
  unfold is_data_line at 1. destruct (startswith "data: " line) eqn:Hp.
  - rewrite loop_cons.
    destruct (process_line body line st) as [[out st'] [[|]|e]]; try reflexivity.
    rewrite IH. destruct (loop body rest st') as [[out2 st2] [[stop rest2]|e]];
      reflexivity.
  - rewrite (process_line_skip _ _ _ body line st Hp), IH.
    destruct (loop body rest st) as [[out2 st2] [[stop rest2]|e]]; reflexivity.
Qed.

(** X1.  Lines that do not start with the event prefix (blank lines,
    comments, keep-alives) change nothing: the run over all the lines and
    the run over the data lines alone yield the same strings, end the
    same way and in the same phase, and leave unread the data lines of
    what the full run leaves unread. *)
Theorem non_data_lines_ignored body lines :
  let r := reshape_lines body lines in
  let r' := reshape_lines body (List.filter is_data_line lines) in
  emitted r' = emitted r
  /\ finish r' = finish r
  /\ phase r' = phase r
  /\ unread r' = List.filter is_data_line (unread r).
Proof.
  unfold Stream.reshape_lines, Stream.run_from. rewrite loop_filter.
  destruct (loop body lines initial) as [[out st'] [[[|] rest]|e]]; cbn; auto.
Qed.

(** *** Failures inside the loop *)

Lemma process_line_raise body line st out st' e :
  process_line body line st = (out, st', Raise e) ->
  out = [] /\ st' = st /\ is_data_line line = true.
Proof.
  intros H.
  destruct (process_line_inv json_loads json_dumps time_time body line st)
    as [[Hp E]|[(Hp & _ & e' & E)|(d & c & delta & Hp & _ & _ & _ & E)]];
    rewrite E in H.
  - discriminate.
  - injection H as <- <- _. auto.
  - destruct (turn_shape json_dumps time_time body d c delta st) as (ch & s1 & E' & _).
    rewrite E' in H. discriminate.
Qed.

Lemma loop_raise body lines st out st' e :
  loop body lines st = (out, st', Raise e) ->
  exists pre line post,
    lines = pre ++ line :: post
    /\ loop body pre st = (out, st', Ok (false, []))
    /\ process_line body line st' = ([], st', Raise e).
Proof.
  revert st out. induction lines as [|line rest IH]; intros st out H; [discriminate|].
  rewrite loop_cons in H.
  destruct (process_line body line st) as [[o s] [[|]|e']] eqn:E.
  - discriminate.
  - destruct (loop body rest s) as [[out2 st2] r] eqn:E2.
    injection H as <- <- ->.
    destruct (IH _ _ E2) as (pre & l & post & -> & Hpre & Hl).
    exists (line :: pre), l, post. split; [reflexivity|]. split; [|assumption].
    rewrite loop_cons, E, Hpre. reflexivity.
  - injection H as <- <- <-.
    destruct (process_line_raise _ _ _ _ _ _ E) as (-> & -> & _).
    exists [], line, rest. auto.
Qed.

(** X2.  A turn that fails has yielded nothing and changed no state, so
    a run that ends with an exception has yielded exactly what the lines
    before the failing line yield, and is in the phase they leave; the
    failing line is a data line. *)
Theorem failure_yields_nothing body lines e :
  finish (reshape_lines body lines) = Raised e ->
  exists pre line post,
    lines = pre ++ line :: post
    /\ is_data_line line = true
    /\ finish (reshape_lines body pre) = Exhausted
    /\ emitted (reshape_lines body lines) = emitted (reshape_lines body pre)
    /\ phase (reshape_lines body lines) = phase (reshape_lines body pre).
Proof.
  unfold Stream.reshape_lines, Stream.run_from.
  destruct (loop body lines initial) as [[out st'] [[[|] rest]|e']] eqn:E;
    cbn [finish]; try discriminate.
  intros H. injection H as ->.
  destruct (loop_raise _ _ _ _ _ _ E) as (pre & line & post & -> & Hpre & Hl).
  exists pre, line, post. rewrite Hpre. cbn.
  destruct (process_line_raise _ _ _ _ _ _ Hl) as (_ & _ & Hd). auto.
Qed.

(** *** The output as the lines arrive *)

Lemma loop_app_stop_exact body pre post st o s r :
  loop body pre st = (o, s, r) ->
  (forall rest, r <> Ok (false, rest)) ->
  loop body (pre ++ post) st
  = (o, s, match r with
           | Ok (stop, rest) => Ok (stop, rest ++ post)
           | Raise e => Raise e
           end).
Proof.
  revert st o. induction pre as [|line pre IH]; intros st o H Hr.
  - cbn in H. injection H as <- <- <-. exfalso. eapply Hr. reflexivity.
  - cbn [app]. rewrite loop_cons in *.
    destruct (process_line body line st) as [[out st'] [[|]|e]].
    + injection H as <- <- <-. reflexivity.
    + destruct (loop body pre st') as [[o2 s2] r2] eqn:E. injection H as <- <- <-.
      rewrite (IH _ _ E Hr). reflexivity.
    + injection H as <- <- <-. reflexivity.
Qed.

(** X3.  The generator works on line: what it yields for the first lines
    does not depend on the lines that follow.  The output for a prefix of
    the lines is a prefix of the output for all of them, and once the run
    over a prefix has returned or failed the following lines add nothing
    and are only left unread. *)
Theorem output_is_online body pre post :
  let p := reshape_lines body pre in
  let r := reshape_lines body (pre ++ post) in
  (exists tail, emitted r = emitted p ++ tail)
  /\ (finish p <> Exhausted ->
      emitted r = emitted p /\ finish r = finish p /\ phase r = phase p)
  /\ (finish p = Returned -> unread r = unread p ++ post).
Proof.
  unfold Stream.reshape_lines, Stream.run_from.
  destruct (loop body pre initial) as [[o s] r] eqn:E.
  assert (Hcase : (exists rest, r = Ok (false, rest)) \/ forall rest, r <> Ok (false, rest)).
  { destruct r as [[[|] rest]|e]; [right; discriminate|left; eauto|right; discriminate]. }
  destruct Hcase as [[rest ->]|Hstop].
  - destruct (exhausted_loop json_loads json_dumps time_time body pre initial)
      as (o1 & s1 & E1).
    { unfold Stream.run_from. rewrite E. reflexivity. }
    rewrite (loop_app _ _ _ body pre post initial o1 s1 E1).
    rewrite E in E1. injection E1 as <- <- ->. cbn [emitted finish unread].
    destruct (loop body post s) as [[out2 st2] [[[|] rest2]|e]]; cbn [emitted];
      (split; [eauto|]); split; intros H; congruence.
  - rewrite (loop_app_stop_exact body pre post initial o s r E Hstop).
    destruct r as [[[|] rest]|e]; cbn.
    + split; [exists []; now rewrite app_nil_r|]. auto.
    + exfalso. eapply Hstop. reflexivity.
    + split; [exists []; now rewrite app_nil_r|]. split; [auto|discriminate].
Qed.

(** *** The framing of the output *)

Lemma is_chunk_framed s : is_chunk s -> framed s.
Proof. intros [c ->]. eexists. reflexivity. Qed.

Lemma done_line_framed : framed done_line.
Proof. exists "[DONE]"%string. reflexivity. Qed.

Lemma chunks_framed chunks : Forall is_chunk chunks -> Forall framed chunks.
Proof.
  induction 1 as [|s chunks Hs _ IH]; [constructor 1|].
  constructor 2; [now apply is_chunk_framed|assumption].
Qed.

Lemma run_from_framed body lines st : Forall framed (emitted (run_from st body lines)).
Proof.
  unfold Stream.run_from.
  destruct (loop_spec json_loads json_dumps time_time body lines st)
    as (out & st' & r & E & _ & _ & Hr).
  rewrite E. destruct r as [[[|] rest]|e]; cbn [emitted].
  - destruct Hr as (_ & _ & chunks & _ & _ & _ & _ & _ & -> & Hch).
    apply Forall_app. split.
    + now apply chunks_framed.
    + constructor 2; [apply done_line_framed|constructor 1].
  - destruct Hr as [_ Hch]. now apply chunks_framed.
  - now apply chunks_framed.
Qed.

(** X4.  Whatever the upstream sends and however the exchange ends,
    every string the streaming handler yields is one server-sent event:
    the prefix data, colon, space, then a payload, then two line feeds. *)
Theorem every_yield_is_framed body :
  Forall framed
    (emitted (_handle_streaming_request valves json_loads json_dumps time_time
                client_stream body))
  /\ forall lines, Forall framed (emitted (reshape_lines body lines)).
Proof.
  split; [|intros lines; apply run_from_framed].
  unfold _handle_streaming_request.
  destruct (client_stream _ _ _) as [response|e]; [|constructor 1].
  destruct (stream_status_error response); [constructor 1|].
  pose proof (run_from_framed body (lines response) initial) as H.
  unfold Stream.reshape_lines.
  destruct (finish _); [destruct (failure response)| |]; exact H.
Qed.

(** X5.  The usage-style event whose choices list is empty is not
    survived: where the loop reaches a data line whose event has an empty
    choices list, indexing it raises IndexError, nothing is yielded for
    that line, and the generator fails there. *)
Theorem empty_choices_raises body pre post payload d :
  json_loads payload = Some (PDict d) ->
  dict_lookup "choices" d = Some (PList []) ->
  finish (reshape_lines body pre) = Exhausted ->
  let r := reshape_lines body (pre ++ ("data: " ++ payload)%string :: post) in
  emitted r = emitted (reshape_lines body pre)
  /\ finish r = Raised IndexError
  /\ phase r = phase (reshape_lines body pre).
Proof.
  intros Hl Hc Hx r. subst r. unfold Stream.reshape_lines in *.
  destruct (exhausted_loop _ _ _ body pre initial Hx) as (o1 & s1 & Hpre).
  unfold Stream.run_from. rewrite (loop_app _ _ _ body pre _ initial o1 s1 Hpre), Hpre.
  rewrite loop_cons, process_line_data by reflexivity.
  change (slice_from 6 ("data: " ++ payload)%string) with payload.
  unfold loads. rewrite Hl, gbind_eval_ok.
  unfold first_choice. cbn [py_get bind]. unfold dict_get. rewrite Hc.
  cbn [py_first]. rewrite gbind_eval_raise.
  cbn. rewrite app_nil_r. auto.
Qed.

(** *** Counting and stamping the chunks *)

Local Abbreviation model_of body := (dict_get "model" body (PStr "unknown")).
Local Abbreviation done_if b := (if b : bool then [done_line] else []).

Lemma stamped_app model n a b :
  stamped model n a -> stamped model (n + length a) b -> stamped model n (a ++ b).
Proof.
  induction 1 as [n|n id content rest _ IH]; cbn [app length].
  - now rewrite Nat.add_0_r.
  - intros H. constructor 2. apply IH. now rewrite Nat.add_succ_comm.
Qed.

(** A turn on a well-formed event, in detail: the chunks are stamped by
    successive clock readings, there is at most one of them beyond the
    steps the phase makes, and from -1 the phase moves only on a reasoning
    fragment that counts as true. *)
Lemma turn_stamped body d c delta st :
  exists chunks st',
    turn body d c delta st
    = (chunks ++ done_if (truthy (dict_get "finish_reason" c PNone)), st',
       Ok (truthy (dict_get "finish_reason" c PNone)))
    /\ stamped (model_of body) (clock_reads st) chunks
    /\ clock_reads st' = (clock_reads st + length chunks)%nat
    /\ thinking_state st <= thinking_state st'
    /\ Z.of_nat (length chunks) <= 1 + (thinking_state st' - thinking_state st)
    /\ (thinking_state st = -1 ->
        truthy (dict_get "reasoning" delta PNone) = false ->
        thinking_state st' = -1).
Proof.
  unfold Stream.turn. rewrite state_transitions_dict.
  destruct st as [ts n]. cbn [thinking_state clock_reads].
  destruct ((ts =? -1) && truthy (dict_get "reasoning" delta PNone)) eqn:E1;
    [|destruct ((ts =? 0) && negb (truthy (dict_get "reasoning" delta PNone))
                && truthy (dict_get "content" delta PNone)) eqn:E2];
    rewrite content_output_dict; cbn [thinking_state clock_reads tick];
    destruct (truthy (content_of delta));
    destruct (truthy (dict_get "finish_reason" c PNone));
    lazymatch goal with
    | |- exists _ _, (?o1 ++ ?o2 ++ _, ?s, _) = _ /\ _ => exists (o1 ++ o2), s
    | |- exists _ _, (?o1 ++ ?o2, ?s, _) = _ /\ _ => exists (o1 ++ o2), s
    end;
    (split; [reflexivity|]);
    (split; [cbn [app]; repeat (constructor 2); constructor 1|]);
    unfold tick; cbn [thinking_state clock_reads app length];
    try (apply andb_true_iff in E1; destruct E1 as [E1 E1']; apply Z.eqb_eq in E1);
    try (apply andb_true_iff in E2; destruct E2 as [E2 _];
         apply andb_true_iff in E2; destruct E2 as [E2 _]; apply Z.eqb_eq in E2);
    repeat split; try lia; try congruence.
Qed.

Lemma carries_reasoning_event line d c delta :
  startswith "data: " line = true ->
  json_loads (slice_from 6 line) = Some (PDict d) ->
  first_choice (PDict d) = Ok (PDict c) ->
  dict_get "delta" c (PDict []) = PDict delta ->
  carries_reasoning json_loads line = truthy (dict_get "reasoning" delta PNone).
Proof.
  intros Hp Hl Hc Hd. unfold carries_reasoning, reasoning_of.
  rewrite Hp, Hl, Hc, Hd. reflexivity.
Qed.

Lemma process_line_stamped body line st :
  exists chunks st' r,
    process_line body line st = (chunks ++ done_if (stopped r), st', r)
    /\ stamped (model_of body) (clock_reads st) chunks
    /\ clock_reads st' = (clock_reads st + length chunks)%nat
    /\ thinking_state st <= thinking_state st'
    /\ Z.of_nat (length chunks)
       <= (if is_data_line line then 1 else 0) + (thinking_state st' - thinking_state st)
    /\ (thinking_state st = -1 -> carries_reasoning json_loads line = false ->
        thinking_state st' = -1).
Proof.
  destruct (process_line_inv json_loads json_dumps time_time body line st)
    as [[Hp E]|[(Hp & _ & e & E)|(d & c & delta & Hp & Hl & Hc & Hd & E)]];
    unfold is_data_line; rewrite Hp.
  - exists [], st, (Ok false). rewrite E. cbn. repeat split; try lia. constructor 1.
  - exists [], st, (Raise e). rewrite E. cbn. repeat split; try lia. constructor 1.
  - destruct (turn_stamped body d c delta st) as (chunks & st' & E' & H1 & H2 & H3 & H4 & H5).
    exists chunks, st', (Ok (truthy (dict_get "finish_reason" c PNone))).
    rewrite E, E'. split.
    { destruct (truthy (dict_get "finish_reason" c PNone)); reflexivity. }
    repeat (split; [assumption|]).
    intros Hs Hr. apply H5; [assumption|].
    now rewrite <- (carries_reasoning_event line d c delta).
Qed.

(** The loop, in detail. *)
Lemma loop_stamped body lines st :
  exists chunks st' r,
    loop body lines st = (chunks ++ done_if (returned r), st', r)
    /\ stamped (model_of body) (clock_reads st) chunks
    /\ clock_reads st' = (clock_reads st + length chunks)%nat
    /\ Z.of_nat (length chunks)
       <= Z.of_nat (length (List.filter is_data_line lines))
          + (thinking_state st' - thinking_state st)
    /\ (thinking_state st = -1 ->
        existsb (carries_reasoning json_loads) lines = false ->
        thinking_state st' = -1).
Proof.
  revert st. induction lines as [|line rest IH]; intros st.
  - exists [], st, (Ok (false, [])). cbn. repeat split; try lia. constructor 1.
  - rewrite loop_cons.
    destruct (process_line_stamped body line st)
      as (ch & s1 & r1 & E & Hst & Hclk & Hle & Hlen & Hnr).
    rewrite E. cbn [List.filter existsb].
    destruct r1 as [[|]|e]; cbn [stopped].
    + exists ch, s1, (Ok (true, rest)). cbn [returned].
      repeat (split; [first [reflexivity|assumption]|]). split.
      * destruct (is_data_line line); cbn [length]; lia.
      * intros Hs Hr. apply orb_false_iff in Hr. destruct Hr as [Hr _]. auto.
    + destruct (IH s1) as (ch2 & s2 & r2 & E2 & Hst2 & Hclk2 & Hlen2 & Hnr2).
      rewrite E2. exists (ch ++ ch2), s2, r2.
      split; [rewrite app_nil_r, app_assoc; reflexivity|].
      split; [apply stamped_app; [assumption|now rewrite <- Hclk]|].
      split; [rewrite length_app; lia|]. split.
      * rewrite length_app. destruct (is_data_line line); cbn [length]; lia.
      * intros Hs Hr. apply orb_false_iff in Hr. destruct Hr as [Hr Hr2]. auto.
    + exists ch, s1, (Raise e). cbn [returned].
      repeat (split; [first [reflexivity|assumption]|]). split.
      * destruct (is_data_line line); cbn [length]; lia.
      * intros Hs Hr. apply orb_false_iff in Hr. destruct Hr as [Hr _]. auto.
Qed.

(** X6.  The chunks of a run are framed as the specification frames
    them, all carry the model of the request (or unknown when it has
    none) and are stamped by the successive readings of the clock, one
    reading per chunk, the first chunk by the first reading; the literal
    termination line, and nothing else, follows them when the run
    returns. *)
Theorem chunks_are_stamped body lines :
  exists chunks,
    emitted (reshape_lines body lines)
    = chunks ++ spec_closing (finish (reshape_lines body lines))
    /\ stamped (dict_get "model" body (PStr "unknown")) 0 chunks.
Proof.
  unfold Stream.reshape_lines, Stream.run_from.
  destruct (loop_stamped body lines initial) as (chunks & st' & r & E & Hst & _).
  rewrite E. exists chunks. destruct r as [[[|] rest]|e]; cbn; auto.
Qed.

(** X7.  A run yields at most one content chunk for each data line, one
    marker chunk for each step of the phase, and one termination line:
    never more strings than data lines plus three. *)
Theorem output_length_bound body lines :
  let r := reshape_lines body lines in
  Z.of_nat (length (emitted r))
  <= Z.of_nat (length (List.filter is_data_line lines)) + (phase r + 1)
     + Z.of_nat (length (closing (finish r)))
  /\ (length (emitted r) <= length lines + 3)%nat.
Proof.
  assert (Hf : (length (List.filter is_data_line lines) <= length lines)%nat)
    by apply List.filter_length_le.
  pose proof (run_from_phase json_loads json_dumps time_time body lines initial)
    as [_ Hrange].
  specialize (Hrange ltac:(cbn; lia)). revert Hrange.
  unfold Stream.reshape_lines, Stream.run_from.
  destruct (loop_stamped body lines initial) as (chunks & st' & r & E & _ & _ & Hlen & _).
  rewrite E. cbn [thinking_state initial] in Hlen.
  destruct r as [[[|] rest]|e]; cbn [emitted finish phase closing returned length];
    rewrite ?length_app, ?app_nil_r; cbn [length]; intros Hrange; lia.
Qed.

(** X8.  When no line carries a reasoning fragment that counts as true,
    the phase never leaves -1 and no marker chunk is yielded: the run
    yields at most one chunk for each data line, then at most the
    termination line. *)
Theorem no_reasoning_no_markers body lines :
  existsb (carries_reasoning json_loads) lines = false ->
  let r := reshape_lines body lines in
  phase r = -1
  /\ (length (emitted r)
      <= length (List.filter is_data_line lines) + length (closing (finish r)))%nat.
Proof.
  intros Hnr. unfold Stream.reshape_lines, Stream.run_from.
  destruct (loop_stamped body lines initial) as (chunks & st' & r & E & _ & _ & Hlen & Hph).
  rewrite E. specialize (Hph eq_refl Hnr). rewrite Hph in Hlen.
  cbn [thinking_state initial] in Hlen.
  destruct r as [[[|] rest]|e]; cbn [emitted finish phase closing returned length];
    rewrite ?length_app, ?app_nil_r; cbn [length]; split; try assumption; lia.
Qed.

(** X9.  A delta that holds a reasoning fragment that counts as true is
    output as reasoning, whatever else it holds: its content is dropped.
    Before any reasoning the opening marker comes first; in the later
    phases, the answered one included, the fragment goes out as a plain
    chunk, without a marker and without a change of phase.  The chunks
    are those the specification frames, with the id of the event, the
    model of the request and the successive readings of the clock. *)
Theorem reasoning_takes_precedence body payload d c delta reasoning st :
  json_loads payload = Some (PDict d) ->
  event_choice d = Some c ->
  event_delta c = Some delta ->
  dict_lookup "reasoning" delta = Some reasoning ->
  truthy reasoning = true ->
  let line := ("data: " ++ payload)%string in
  let id := dict_get "id" d (PStr EmptyString) in
  let model := dict_get "model" body (PStr "unknown") in
  let stop := truthy (dict_get "finish_reason" c PNone) in
  let last := if stop then [spec_done_line] else [] in
  (thinking_state st = -1 ->
   process_line body line st
   = ([ spec_chunk json_dumps id (time_time (clock_reads st)) model (PStr "<think>");
        spec_chunk json_dumps id (time_time (S (clock_reads st))) model reasoning ]
      ++ last,
      GState 0 (S (S (clock_reads st))), Ok stop))
  /\ (thinking_state st <> -1 ->
      process_line body line st
      = ([spec_chunk json_dumps id (time_time (clock_reads st)) model reasoning] ++ last,
         GState (thinking_state st) (S (clock_reads st)), Ok stop)).
Proof.
  intros Hl Hc Hd Hv Hr line id model stop last.
  assert (Hg : dict_get "reasoning" delta PNone = reasoning)
    by (unfold dict_get; now rewrite Hv).
  subst line.
  rewrite (process_line_event _ _ _ body ("data: " ++ payload)%string d c delta st
             eq_refl Hl (event_choice_first d c Hc) (event_delta_get c delta Hd)).
  unfold Stream.turn. rewrite state_transitions_dict.
  assert (Hco : content_of delta = reasoning)
    by (unfold content_of; now rewrite Hg, Hr).
  rewrite Hg, Hr.
  destruct st as [ts n]. cbn [thinking_state clock_reads negb]. split.
  - intros ->. rewrite Z.eqb_refl. cbn [andb]. cbv beta iota.
    rewrite content_output_dict, Hco, Hr. fold stop.
    cbn [clock_reads tick thinking_state]. subst last. destruct stop; reflexivity.
  - intros Hts. apply Z.eqb_neq in Hts. rewrite Hts. cbn [andb].
    rewrite andb_false_r. cbn [andb]. cbv beta iota.
    rewrite content_output_dict, Hco, Hr. fold stop. subst last.
    destruct stop; reflexivity.
Qed.

(** *** The model identifier *)

Lemma find_char_app c ns rest :
  find (String c EmptyString) ns = None ->
  find (String c EmptyString) (ns ++ String c rest)%string = Some (String.length ns).
Proof.
  induction ns as [|a t IH]; intros H.
  - apply find_startswith.
    change (EmptyString ++ String c rest)%string with (String c rest).
    cbn [startswith]. now rewrite Ascii.eqb_refl.
  - change (String a t ++ String c rest)%string with (String a (t ++ String c rest)%string).
    simpl find in *. cbn [startswith] in *.
    destruct (Ascii.eqb c a); [discriminate|].
    destruct (find (String c EmptyString) t); [discriminate|].
    rewrite (IH eq_refl). reflexivity.
Qed.

Lemma slice_from_past s a t :
  slice_from (String.length s + 1) (s ++ String a t)%string = t.
Proof. induction s as [|b s IH]; [reflexivity|exact IH]. Qed.

Lemma split1_last_first_dot ns rest :
  str_contains "." ns = false ->
  split1_last "." (ns ++ "." ++ rest)%string = rest
  /\ split1_last "." ns = ns.
Proof.
  unfold str_contains, split1_last. intros H.
  destruct (find "." ns) eqn:E; [discriminate|]. split; [|reflexivity].
  change (ns ++ "." ++ rest)%string with (ns ++ String "." rest)%string.
  rewrite (find_char_app "."%char ns rest E). apply slice_from_past.
Qed.

(** X10.  The namespace the host puts before the model identifier is cut
    at the first ".": for a namespace without a ".", the identifier is
    what follows it (later dots are kept), less the first "reasoning/";
    when "reasoning/" leads what follows, exactly that one prefix is
    removed, whatever comes after it.  A model without a "." is taken
    whole. *)
Theorem normalize_model_strips_namespace ns rest :
  str_contains "." ns = false ->
  normalize_model (PStr (ns ++ "." ++ rest))
  = Ok (PStr (replace1 "reasoning/" EmptyString rest))
  /\ normalize_model (PStr (ns ++ "." ++ "reasoning/" ++ rest)) = Ok (PStr rest)
  /\ normalize_model (PStr ns) = Ok (PStr (replace1 "reasoning/" EmptyString ns)).
Proof.
  intros H. unfold normalize_model. cbn [py_split1_last bind].
  destruct (split1_last_first_dot ns rest H) as [H1 H3].
  destruct (split1_last_first_dot ns ("reasoning/" ++ rest) H) as [H2 _].
  rewrite H1, H2, H3. split; [reflexivity|]. split; reflexivity.
Qed.

(** *** What [pipe] hands on *)

Local Abbreviation pipe :=
  (Pipe.pipe valves json_loads json_dumps time_time str_exc py_repr
     client_post client_stream).

(** X11.  A request whose model is present and not a string makes [pipe]
    raise AttributeError for the missing [split], before the guarded
    part: no handler is created and no error string is returned. *)
Theorem pipe_rejects_non_string_model body sigma d v :
  sigma !! body = Some d ->
  dict_lookup "model" d = Some v ->
  (forall s, v <> PStr s) ->
  (pipe body sigma).2 = Raise (AttributeError v "split").
Proof.
  intros Hb Hm Hv. unfold Pipe.pipe, normalize. rewrite Hb. unfold dict_has.
  rewrite Hm. cbn [py_getitem]. rewrite Hm. unfold normalize_model.
  destruct v; try reflexivity. exfalso. eapply Hv. reflexivity.
Qed.

Lemma normalize_result body sigma d :
  sigma !! body = Some d ->
  (dict_lookup "model" d = None \/ exists s, dict_lookup "model" d = Some (PStr s)) ->
  exists sigma' m,
    normalize body sigma = (sigma', Ok m)
    /\ sigma' !! m = Some (upstream_body d)
    /\ sigma' !! body = Some d.
Proof.
  intros Hb Hm.
  assert (Hne : fresh (dom sigma) <> body).
  { intros E. apply (is_fresh (dom sigma)). rewrite E. apply elem_of_dom. eauto. }
  unfold normalize, upstream_body. rewrite Hb. unfold dict_has. cbn [py_getitem].
  destruct Hm as [Hm|[s Hm]]; rewrite Hm; cbn [normalize_model py_split1_last bind];
    eexists _, _; (split; [reflexivity|]);
    (split; [apply lookup_insert_eq|]); now rewrite !lookup_insert_ne.
Qed.

(** X12.  For a request whose model is absent or a string, [pipe] reads
    the stream flag of the caller's mapping and hands the normalised copy
    to one handler: the streaming one when the flag counts as true, the
    other one otherwise (flag absent, false, null, zero or empty).  The
    copy asks for the reasoning, keeps the stream flag, and carries the
    rewritten model. *)
Theorem pipe_dispatch body sigma d :
  sigma !! body = Some d ->
  (dict_lookup "model" d = None \/ exists s, dict_lookup "model" d = Some (PStr s)) ->
  (pipe body sigma).2
  = Ok (if truthy (dict_get "stream" d (PBool false))
        then AsyncGenerator
               (_handle_streaming_request valves json_loads json_dumps time_time
                  client_stream (upstream_body d))
        else Coroutine
               (_handle_normal_request valves json_loads py_repr client_post
                  (upstream_body d)))
  /\ dict_lookup "include_reasoning" (upstream_body d) = Some (PBool true)
  /\ dict_lookup "stream" (upstream_body d) = dict_lookup "stream" d
  /\ (forall s, dict_lookup "model" d = Some (PStr s) ->
                dict_lookup "model" (upstream_body d)
                = Some (PStr (replace1 "reasoning/" EmptyString (split1_last "." s)))).
Proof.
  intros Hb Hm.
  destruct (normalize_result body sigma d Hb Hm) as (sigma' & m & E & Hm' & Hb').
  split; [|split; [|split]].
  - unfold Pipe.pipe. rewrite E. cbv beta iota. unfold pydict in *. rewrite Hb', Hm'.
    cbn [default from_option id py_get bind try_except snd].
    destruct (truthy (dict_get "stream" d (PBool false))); reflexivity.
  - apply dict_lookup_set_eq.
  - unfold upstream_body. rewrite dict_lookup_set_ne by discriminate.
    destruct (dict_lookup "model" d) as [[| | | |s| |]|]; try reflexivity.
    now rewrite dict_lookup_set_ne.
  - intros s Hs. unfold upstream_body. rewrite Hs.
    rewrite dict_lookup_set_ne by discriminate. apply dict_lookup_set_eq.
Qed.

(** *** The model listing *)

Local Abbreviation pipes_try := (Pipe.pipes_try valves json_loads requests_get).
Local Abbreviation pipes := (Pipe.pipes valves json_loads str_exc requests_get).
Local Abbreviation models_url := (OPENROUTER_API_BASE_URL valves ++ "/models")%string.
Local Abbreviation headers := (_get_headers valves).
Local Abbreviation fallback := (fallback_entry str_exc).

Lemma bind_ok {A B} (m : result A) (k : A -> result B) b :
  bind m k = Ok b -> exists a, m = Ok a /\ k a = Ok b.
Proof. destruct m as [a|e]; [eauto|discriminate]. Qed.

Lemma for_each_app_raise {A B} (f : A -> result B) good bad rest l e :
  for_each f good = Ok l -> f bad = Raise e ->
  for_each f (good ++ bad :: rest) = Raise e.
Proof.
  revert l. induction good as [|x good IH]; intros l Hg Hb; cbn [app for_each].
  - now rewrite Hb.
  - cbn [for_each] in Hg. apply bind_ok in Hg. destruct Hg as (y & -> & Hg).
    apply bind_ok in Hg. destruct Hg as (ys & Hys & _). cbn [bind].
    now rewrite (IH ys Hys Hb).
Qed.

Lemma for_filter_app_raise {A} (f : A -> result bool) good bad rest l e :
  for_filter f good = Ok l -> f bad = Raise e ->
  for_filter f (good ++ bad :: rest) = Raise e.
Proof.
  revert l. induction good as [|x good IH]; intros l Hg Hb; cbn [app for_filter].
  - now rewrite Hb.
  - cbn [for_filter] in Hg. apply bind_ok in Hg. destruct Hg as (y & -> & Hg).
    apply bind_ok in Hg. destruct Hg as (ys & Hys & _). cbn [bind].
    now rewrite (IH ys Hys Hb).
Qed.

Lemma for_each_model_entry_mapping models :
  forallb is_mapping models = true ->
  for_each model_entry models = Ok (map spec_listing_entry models).
Proof.
  induction models as [|model models IH]; [reflexivity|].
  cbn [forallb for_each map]. intros H. apply andb_true_iff in H. destruct H as [H1 H2].
  rewrite (IH H2). destruct model; try discriminate. reflexivity.
Qed.

(** The start of the [try] on a fetch that succeeds and decodes to a
    mapping. *)
Lemma pipes_try_fetched response j :
  requests_get models_url headers = Ok response ->
  status_error response = None ->
  json_loads (text response) = Some (PDict j) ->
  pipes_try
  = bind (py_len (dict_get "data" j (PList []))) (fun _ =>
    bind (if FREE_ONLY valves
          then bind (py_iter (dict_get "data" j (PList []))) (fun items =>
               bind (for_filter is_free items) (fun kept => Ok (PList kept)))
          else Ok (dict_get "data" j (PList []))) (fun models_data =>
    bind (py_iter models_data) (fun items => for_each model_entry items))).
Proof.
  intros H Hs Hl. unfold Pipe.pipes_try, _handle_response, loads.
  rewrite H. cbn [bind]. rewrite Hs, Hl. reflexivity.
Qed.

(** X14.  Without FREE_ONLY the listing keeps every fetched entry, in
    order, as its id and name pair; a missing id becomes unknown and a
    missing name Unknown Model.  The ids need not be strings. *)
Theorem pipes_lists_every_model response j models :
  FREE_ONLY valves = false ->
  requests_get models_url headers = Ok response ->
  status_error response = None ->
  json_loads (text response) = Some (PDict j) ->
  dict_lookup "data" j = Some (PList models) ->
  forallb is_mapping models = true ->
  pipes = map spec_listing_entry models.
Proof.
  intros Hf H Hs Hl Hd Hok. unfold Pipe.pipes.
  rewrite (pipes_try_fetched response j H Hs Hl). unfold dict_get. rewrite Hd, Hf.
  cbn [py_len bind py_iter]. now rewrite for_each_model_entry_mapping.
Qed.

(** X15.  A fetched document that is a mapping without a data key gives
    the empty listing, not the fallback entry, with or without
    FREE_ONLY. *)
Theorem pipes_without_data_is_empty response j :
  requests_get models_url headers = Ok response ->
  status_error response = None ->
  json_loads (text response) = Some (PDict j) ->
  dict_lookup "data" j = None ->
  pipes = [].
Proof.
  intros H Hs Hl Hd. unfold Pipe.pipes.
  rewrite (pipes_try_fetched response j H Hs Hl). unfold dict_get. rewrite Hd.
  destruct (FREE_ONLY valves); reflexivity.
Qed.

(** X16.  A data entry that has no length (null, a number, a boolean)
    sends the listing to the fallback entry, whatever the DEBUG and
    FREE_ONLY valves: the length is computed for the debug message before
    the message is handed to [_debug]. *)
Theorem pipes_data_without_length response j v e :
  requests_get models_url headers = Ok response ->
  status_error response = None ->
  json_loads (text response) = Some (PDict j) ->
  dict_lookup "data" j = Some v ->
  py_len v = Raise e ->
  pipes = [fallback e].
Proof.
  intros H Hs Hl Hd Hlen. unfold Pipe.pipes.
  rewrite (pipes_try_fetched response j H Hs Hl). unfold dict_get. rewrite Hd, Hlen.
  reflexivity.
Qed.

(** X17.  With FREE_ONLY, one fetched entry whose id is present and not a
    string spoils the whole listing: lower-casing it raises, and the
    listing is the fallback entry alone, the well-formed entries before
    it included. *)
Theorem pipes_free_only_needs_string_ids response j good m v rest :
  FREE_ONLY valves = true ->
  requests_get models_url headers = Ok response ->
  status_error response = None ->
  json_loads (text response) = Some (PDict j) ->
  dict_lookup "data" j = Some (PList (good ++ PDict m :: rest)) ->
  forallb model_ok good = true ->
  dict_lookup "id" m = Some v ->
  (forall s, v <> PStr s) ->
  pipes = [fallback (AttributeError v "lower")].
Proof.
  intros Hf H Hs Hl Hd Hok Hid Hv. unfold Pipe.pipes.
  rewrite (pipes_try_fetched response j H Hs Hl). unfold dict_get. rewrite Hd, Hf.
  cbn [py_len bind py_iter].
  rewrite (for_filter_app_raise is_free good (PDict m) rest _ (AttributeError v "lower")
             (for_filter_is_free good Hok)); [reflexivity|].
  unfold is_free. cbn [py_get bind]. unfold dict_get. rewrite Hid.
  destruct v; try reflexivity. exfalso. eapply Hv. reflexivity.
Qed.

Lemma model_entry_shape model entry :
  model_entry model = Ok entry -> listing_entry_shape entry.
Proof.
  unfold model_entry. intros H. apply bind_ok in H. destruct H as (id & _ & H).
  apply bind_ok in H. destruct H as (name & _ & H). injection H as <-.
  now exists id, name.
Qed.

Lemma for_each_model_entry_shape items l :
  for_each model_entry items = Ok l -> Forall listing_entry_shape l.
Proof.
  revert l. induction items as [|x items IH]; intros l H; cbn [for_each] in H.
  - injection H as <-. constructor 1.
  - apply bind_ok in H. destruct H as (y & Hy & H).
    apply bind_ok in H. destruct H as (ys & Hys & H). injection H as <-.
    constructor 2; [now apply (model_entry_shape x)|now apply IH].
Qed.

(** X18.  Whatever the upstream answers, every entry [pipes] returns is
    a mapping with exactly the two keys id and name, in that order. *)
Theorem pipes_entries_have_id_and_name : Forall listing_entry_shape pipes.
Proof.
  unfold Pipe.pipes. destruct pipes_try as [l|e] eqn:E.
  - unfold Pipe.pipes_try in E.
    repeat (apply bind_ok in E; destruct E as (? & _ & E)).
    now apply for_each_model_entry_shape in E.
  - constructor 2; [|constructor 1]. now eexists _, _.
Qed.

(** *** The non-streaming reshape *)

Local Abbreviation reshape_document := (Pipe.reshape_document py_repr).
Local Abbreviation reshape_choice := (Pipe.reshape_choice py_repr).

Lemma dict_set_same k v d : dict_lookup k d = Some v -> dict_set k v d = d.
Proof.
  induction d as [|[k0 v0] d IH]; cbn; [discriminate|].
  destruct (String.eqb k k0).
  - intros H. injection H as ->. reflexivity.
  - intros H. now rewrite IH.
Qed.

Lemma plain_entry_unchanged entry :
  plain_entry entry = true ->
  entry_ok entry = true /\ spec_reshape_entry (Pipe.py_str py_repr) entry = entry.
Proof.
  destruct entry as [| | | | | |choice]; try discriminate.
  unfold plain_entry, entry_ok, spec_reshape_entry, dict_has.
  destruct (dict_lookup "message" choice) as [[| | | | | |message]|]; try discriminate;
    [|auto].
  destruct (dict_lookup "reasoning" message); [discriminate|auto].
Qed.

(** X19.  A completion none of whose choices has a reasoning field comes
    back exactly as it was received. *)
Theorem plain_document_unchanged d entries :
  dict_lookup "choices" d = Some (PList entries) ->
  forallb plain_entry entries = true ->
  reshape_document (PDict d) = Ok (PDict d).
Proof.
  intros Hc Hp.
  assert (H : forallb entry_ok entries = true
              /\ map (spec_reshape_entry (Pipe.py_str py_repr)) entries = entries).
  { induction entries as [|entry entries IH] in Hp |- *; [auto|].
    cbn [forallb map] in *. apply andb_true_iff in Hp. destruct Hp as [H1 H2].
    destruct (plain_entry_unchanged entry H1) as [-> ->].
    destruct (IH H2) as [-> ->]. auto. }
  destruct H as [Hok Hmap].
  unfold Pipe.reshape_document. cbn [py_contains bind py_getitem]. unfold dict_has.
  rewrite Hc. cbn [py_iter bind].
  rewrite (for_each_reshape_choice py_repr entries Hok), Hmap. cbn [bind after_loop py_setitem].
  now rewrite (dict_set_same "choices" (PList entries) d Hc).
Qed.

(** X20.  A choice whose message has a reasoning field and no content
    makes the whole reshape raise KeyError for that key: the document is
    not returned, whatever the other choices hold. *)
Theorem reasoning_without_content_raises d good choice message rest :
  dict_lookup "choices" d = Some (PList (good ++ PDict choice :: rest)) ->
  forallb entry_ok good = true ->
  dict_lookup "message" choice = Some (PDict message) ->
  dict_has "reasoning" message = true ->
  dict_lookup "content" message = None ->
  reshape_document (PDict d) = Raise (KeyError (PStr "content")).
Proof.
  intros Hc Hok Hm Hr Hn.
  unfold Pipe.reshape_document. cbn [py_contains bind py_getitem]. unfold dict_has.
  rewrite Hc. cbn [py_iter bind].
  rewrite (for_each_app_raise reshape_choice good (PDict choice) rest _
             (KeyError (PStr "content")) (for_each_reshape_choice py_repr good Hok));
    [reflexivity|].
  unfold Pipe.reshape_choice. cbn [py_contains bind py_getitem]. unfold dict_has in *.
  rewrite Hm. cbn [py_contains bind py_getitem]. unfold dict_has.
  destruct (dict_lookup "reasoning" message); [|discriminate].
  cbn [bind]. rewrite Hn. reflexivity.
Qed.

(** *** Deltas with nothing to say *)

Lemma falsy_content delta :
  truthy (dict_get "content" delta PNone) = false ->
  truthy (dict_get "content" delta (PStr EmptyString)) = false.
Proof. unfold dict_get. destruct (dict_lookup "content" delta); auto. Qed.

(** X21.  An event whose delta has neither a reasoning nor a content
    that counts as true (absent, null or empty: the role-only first
    delta, for one) yields no chunk and changes nothing, in any phase;
    only the termination line goes out when the event also ends the
    stream. *)
Theorem empty_delta_is_silent body line d c delta st :
  startswith "data: " line = true ->
  json_loads (slice_from 6 line) = Some (PDict d) ->
  first_choice (PDict d) = Ok (PDict c) ->
  dict_get "delta" c (PDict []) = PDict delta ->
  truthy (dict_get "reasoning" delta PNone) = false ->
  truthy (dict_get "content" delta PNone) = false ->
  process_line body line st
  = (done_if (truthy (dict_get "finish_reason" c PNone)), st,
     Ok (truthy (dict_get "finish_reason" c PNone))).
Proof.
  intros Hp Hl Hc Hd Hr Hco.
  rewrite (process_line_event _ _ _ body line d c delta st Hp Hl Hc Hd).
  unfold Stream.turn. rewrite state_transitions_dict, Hr, Hco.
  rewrite !andb_false_r. cbv beta iota.
  rewrite content_output_dict. unfold content_of. rewrite Hr, (falsy_content delta Hco).
  destruct (truthy (dict_get "finish_reason" c PNone)); reflexivity.
Qed.

End Further.

(** *** The further properties at concrete inputs *)

Section FurtherConcrete.

Import Scenario Cases.

Local Abbreviation JL := JsonLite.json_loads.
Local Abbreviation JD := JsonLite.json_dumps.
Local Abbreviation reshape_lines := (Stream.reshape_lines JL JD clock).
Local Abbreviation process_line := (Stream.process_line JL JD clock).
Local Abbreviation frame := (Stream.frame JD).
Local Abbreviation pipe :=
  (Pipe.pipe default_valves JL JD clock str_exc py_repr failing_post failing_stream).

Lemma failure_yields_nothing_witness :
  exists pre line post,
    (answer_lines ++ ["data: [DONE]"])%list = (pre ++ line :: post)%list
    /\ is_data_line line = true
    /\ finish (reshape_lines request pre) = Exhausted
    /\ emitted (reshape_lines request (answer_lines ++ ["data: [DONE]"]))
       = emitted (reshape_lines request pre)
    /\ phase (reshape_lines request (answer_lines ++ ["data: [DONE]"]))
       = phase (reshape_lines request pre).
Proof.
  exact (failure_yields_nothing JL JD clock request
           (answer_lines ++ ["data: [DONE]"]) (JSONDecodeError "[DONE]")
           ltac:(vm_compute; reflexivity)).
Defined.

Lemma empty_choices_raises_witness :
  finish (reshape_lines request (answer_lines ++ [wire usage_event])) = Raised IndexError
  /\ emitted (reshape_lines request (answer_lines ++ [wire usage_event]))
     = emitted (reshape_lines request answer_lines).
Proof.
  pose proof (empty_choices_raises JL JD clock request answer_lines []
                (JD usage_event) _
                ltac:(vm_compute; reflexivity) eq_refl
                ltac:(vm_compute; reflexivity)) as (H1 & H2 & _).
  split; [exact H2|exact H1].
Defined.

Lemma no_reasoning_no_markers_witness :
  phase (reshape_lines request plain_lines) = -1
  /\ (length (emitted (reshape_lines request plain_lines)) <= 3 + 1)%nat.
Proof.
  exact (no_reasoning_no_markers JL JD clock request plain_lines
           ltac:(vm_compute; reflexivity)).
Defined.

Lemma reasoning_takes_precedence_witness :
  process_line request (wire both_event) initial
  = ([ spec_chunk JD (PStr "gen-1") (clock 0)
         (PStr "openrouter.reasoning/deepseek-r1") (PStr "<think>");
       spec_chunk JD (PStr "gen-1") (clock 1)
         (PStr "openrouter.reasoning/deepseek-r1") (PStr "r") ]%list,
     GState 0 2, Ok false)
  /\ process_line request (wire both_event) answered
     = ([ spec_chunk JD (PStr "gen-1") (clock 3)
            (PStr "openrouter.reasoning/deepseek-r1") (PStr "r") ]%list,
        GState 1 4, Ok false)
  /\ map (chunk_content JL) (process_line request (wire both_event) answered).1.1
     = [Some (PStr "r")]%list.
Proof.
  pose proof (proj1 (reasoning_takes_precedence JL JD clock request (JD both_event)
                       _ _ _ _ initial ltac:(vm_compute; reflexivity)
                       eq_refl eq_refl eq_refl eq_refl) eq_refl) as H1.
  pose proof (proj2 (reasoning_takes_precedence JL JD clock request (JD both_event)
                       _ _ _ _ answered ltac:(vm_compute; reflexivity)
                       eq_refl eq_refl eq_refl eq_refl) ltac:(discriminate)) as H2.
  split; [exact H1|]. split; [exact H2|].
  change (process_line request (wire both_event) answered)
    with (process_line request ("data: " ++ JD both_event)%string answered).
  rewrite H2. vm_compute. reflexivity.
Defined.

Lemma normalize_model_strips_namespace_witness :
  normalize_model (PStr "openrouter.reasoning/deepseek/deepseek-r1.5")
  = Ok (PStr "deepseek/deepseek-r1.5").
Proof.
  exact (proj1 (proj2 (normalize_model_strips_namespace "openrouter"
                         "deepseek/deepseek-r1.5" eq_refl))).
Defined.

Lemma pipe_rejects_non_string_model_witness :
  (pipe 2%nat caller_store).2 = Raise (AttributeError PNone "split").
Proof.
  exact (pipe_rejects_non_string_model JL JD clock default_valves str_exc py_repr
           failing_post failing_stream 2%nat caller_store bad_request PNone
           ltac:(vm_compute; reflexivity) eq_refl ltac:(discriminate)).
Defined.

Lemma pipe_dispatch_witness :
  (pipe 1%nat caller_store).2
  = Ok (AsyncGenerator
          (_handle_streaming_request default_valves JL JD clock failing_stream
             (upstream_body stream_request)))
  /\ dict_lookup "model" (upstream_body stream_request) = Some (PStr "deepseek-r1").
Proof.
  pose proof (pipe_dispatch JL JD clock default_valves str_exc py_repr
                failing_post failing_stream 1%nat caller_store stream_request
                ltac:(vm_compute; reflexivity)
                (or_intror (ex_intro _ "openrouter.reasoning/deepseek-r1" eq_refl)))
    as (H1 & _ & _ & H4).
  split; [exact H1|exact (H4 _ eq_refl)].
Defined.

Lemma pipes_lists_every_model_witness :
  Pipe.pipes default_valves JL str_exc (serve mixed_listing)
  = [ PDict [("id", PStr "meta/llama-3:free"); ("name", PStr "Llama 3 (free)")];
      PDict [("id", PInt 7); ("name", PStr "seven")];
      PDict [("id", PStr "unknown"); ("name", PStr "nameless")] ]%list.
Proof.
  exact (pipes_lists_every_model JL default_valves str_exc (serve mixed_listing)
           _ mixed_listing mixed_models eq_refl eq_refl eq_refl
           ltac:(vm_compute; reflexivity) eq_refl eq_refl).
Defined.

Lemma pipes_without_data_is_empty_witness :
  Pipe.pipes free_valves JL str_exc (serve no_data) = []%list.
Proof.
  exact (pipes_without_data_is_empty JL free_valves str_exc (serve no_data)
           _ no_data eq_refl eq_refl ltac:(vm_compute; reflexivity) eq_refl).
Defined.

Lemma pipes_data_without_length_witness :
  Pipe.pipes default_valves JL str_exc (serve null_data)
  = [fallback_entry str_exc (TypeError "len" PNone)]%list.
Proof.
  exact (pipes_data_without_length JL default_valves str_exc (serve null_data)
           _ null_data PNone _ eq_refl eq_refl ltac:(vm_compute; reflexivity)
           eq_refl eq_refl).
Defined.

Lemma pipes_free_only_needs_string_ids_witness :
  Pipe.pipes free_valves JL str_exc (serve mixed_listing)
  = [fallback_entry str_exc (AttributeError (PInt 7) "lower")]%list.
Proof.
  exact (pipes_free_only_needs_string_ids JL free_valves str_exc (serve mixed_listing)
           _ mixed_listing
           [PDict [("id", PStr "meta/llama-3:free"); ("name", PStr "Llama 3 (free)")]]%list
           [("id", PInt 7); ("name", PStr "seven")]%list (PInt 7)
           [PDict [("name", PStr "nameless")]]%list
           eq_refl eq_refl eq_refl ltac:(vm_compute; reflexivity) eq_refl eq_refl
           eq_refl ltac:(discriminate)).
Defined.

Lemma plain_document_unchanged_witness :
  reshape_document py_repr (PDict plain_document) = Ok (PDict plain_document).
Proof.
  exact (plain_document_unchanged py_repr plain_document plain_choices eq_refl eq_refl).
Defined.

Lemma reasoning_without_content_raises_witness :
  reshape_document py_repr (PDict bad_document) = Raise (KeyError (PStr "content")).
Proof.
  exact (reasoning_without_content_raises py_repr bad_document
           [PDict [("message", PDict [("role", PStr "assistant"); ("content", PStr "ok")])]]%list
           [("message", PDict [("role", PStr "assistant"); ("reasoning", PStr "R")])]%list
           [("role", PStr "assistant"); ("reasoning", PStr "R")]%list []%list
           eq_refl eq_refl eq_refl eq_refl eq_refl).
Defined.

Lemma empty_delta_is_silent_witness :
  process_line request (wire role_event) initial = ([]%list, initial, Ok false).
Proof.
  exact (empty_delta_is_silent JL JD clock request (wire role_event) _ _ _ initial
           eq_refl ltac:(vm_compute; reflexivity) eq_refl eq_refl eq_refl eq_refl).
Defined.

End FurtherConcrete.
